(** * npbackup: the GUI front-end (npbackup/gui/main.py)

    A shallow embedding of the presentation-side glue of npbackup: the
    functions of [npbackup/gui/main.py] that turn adapter results into
    widget contents, poll background tasks and parse the few strings the
    GUI looks into.

    Conventions.
    - Python [str] is [string]; a JSON object with string fields (a
      snapshot record) is a [gmap string string]; the configuration is a
      dict of sections, each a dict of entries.
    - Code that can raise returns [res]; code that talks to the GUI
      toolkit or the adapter returns [gui], which also records the calls
      it made, in order.
    - The collaborators that live outside this file of the program (the
      adapter [core.runner.runner], the translation helper [_t],
      [dateutil], [BytesConverter], [os.name], [ntpath.dirname] and the
      case mappings [str.upper] and [str.lower] of Unicode) are the
      fields of the class [Externals]. *)

From Stdlib Require Import ZArith Lia Ascii String.
From stdpp Require Import base strings gmap list pretty.

Local Open Scope string_scope.
Local Open Scope list_scope.
Local Open Scope stdpp_scope.

(** ** Python values, truthiness, exceptions *)

Module Py.

(** The values the GUI receives from the adapter or finds in the
    configuration. [VRecords] is a list of JSON objects. *)
Inductive value : Type :=
| VNone
| VBool (b : bool)
| VInt (n : Z)
| VStr (s : string)
| VRecords (l : list (gmap string string)).

(** [bool(v)], as used by [if v:] and [not v]. *)
Definition truthy (v : value) : bool :=
  match v with
  | VNone => false
  | VBool b => b
  | VInt n => negb (n =? 0)%Z
  | VStr s => negb (String.eqb s "")
  | VRecords l => negb (Nat.eqb (length l) 0)
  end.

(** [v is False] and [v is None]: identity with the singletons. *)
Definition is_False (v : value) : bool :=
  match v with VBool false => true | _ => false end.

Definition is_None (v : value) : bool :=
  match v with VNone => true | _ => false end.

Inductive exn : Type :=
| KeyError (k : string)
| AttributeError
| TypeError
| IndexError
| ParserError.

Inductive res (A : Type) : Type :=
| Ok (a : A)
| Raise (e : exn).
Arguments Ok {A} a.
Arguments Raise {A} e.

Definition rbind {A B} (m : res A) (f : A -> res B) : res B :=
  match m with
  | Ok a => f a
  | Raise e => Raise e
  end.

(** A [for] loop that appends [f x] for every [x], stopping at the
    first exception. *)
Fixpoint for_each {A B} (f : A -> res B) (l : list A) : res (list B) :=
  match l with
  | [] => Ok []
  | x :: l' =>
      rbind (f x) (fun y => rbind (for_each f l') (fun ys => Ok (y :: ys)))
  end.

(** [d[k]] on a dict. *)
Definition getitem {V} (d : gmap string V) (k : string) : res V :=
  match d !! k with
  | Some v => Ok v
  | None => Raise (KeyError k)
  end.

End Py.
Export Py.

Notation "x <- m ;; k" := (rbind m (fun x => k))
  (at level 100, m at next level, k at level 200, right associativity).

(** ** Strings: the few [str] methods the GUI uses *)

Module Str.

Definition is_lower (c : ascii) : bool :=
  (97 <=? nat_of_ascii c)%nat && (nat_of_ascii c <=? 122)%nat.

Definition is_upper (c : ascii) : bool :=
  (65 <=? nat_of_ascii c)%nat && (nat_of_ascii c <=? 90)%nat.

Definition upper_char (c : ascii) : ascii :=
  if is_lower c then ascii_of_nat (nat_of_ascii c - 32) else c.

Definition lower_char (c : ascii) : ascii :=
  if is_upper c then ascii_of_nat (nat_of_ascii c + 32) else c.

(** The case mappings of ASCII: what [s.upper()] and [s.lower()] do to
    the letters a-z and A-Z. The methods themselves know the case of
    every letter of Unicode; they are the fields [str_upper] and
    [str_lower] of [Externals]. *)
Fixpoint upper (s : string) : string :=
  match s with
  | EmptyString => EmptyString
  | String c s' => String (upper_char c) (upper s')
  end.

Fixpoint lower (s : string) : string :=
  match s with
  | EmptyString => EmptyString
  | String c s' => String (lower_char c) (lower s')
  end.

(** [s.split(sep)] for a one-character separator: never empty. *)
Fixpoint split (sep : ascii) (s : string) : list string :=
  match s with
  | EmptyString => [EmptyString]
  | String c s' =>
      if Ascii.eqb c sep then EmptyString :: split sep s'
      else match split sep s' with
           | h :: t => String c h :: t
           | [] => [String c EmptyString]
           end
  end.

(** [s.lstrip(c)] and [s.rstrip(c)] for a one-character set. *)
Fixpoint lstrip (c : ascii) (s : string) : string :=
  match s with
  | EmptyString => EmptyString
  | String d s' => if Ascii.eqb d c then lstrip c s' else s
  end.

Fixpoint rstrip (c : ascii) (s : string) : string :=
  match s with
  | EmptyString => EmptyString
  | String d s' =>
      match rstrip c s' with
      | EmptyString => if Ascii.eqb d c then EmptyString else String d EmptyString
      | r => String d r
      end
  end.

(** [x in s] for a character. *)
Fixpoint mem (c : ascii) (s : string) : bool :=
  match s with
  | EmptyString => false
  | String d s' => Ascii.eqb d c || mem c s'
  end.

(** [s[:s.rfind(c) + 1]]: everything up to and including the last
    [c]; empty when [c] does not occur. *)
Fixpoint upto_last (c : ascii) (s : string) : string :=
  match s with
  | EmptyString => EmptyString
  | String d s' =>
      if mem c s then String d (upto_last c s') else EmptyString
  end.

(** [x in l] for a list of strings. *)
Definition in_list (x : string) (l : list string) : bool :=
  existsb (String.eqb x) l.

Definition newline : ascii := ascii_of_nat 10.

(** [s.isascii()]: every character is below 128. *)
Fixpoint isascii (s : string) : bool :=
  match s with
  | EmptyString => true
  | String c s' => (nat_of_ascii c <? 128)%nat && isascii s'
  end.

End Str.

(** ** External collaborators *)

(** The action descriptors the GUI builds ([{'action': 'list'}], ...). *)
Inductive action : Type :=
| Alist
| Ahas_recent_snapshots
| Acheck_binary
| Als (snapshot : string)
| Abackup (force : bool)
| Arestore (snapshot target : string) (includes : list string).

Class Externals : Type := {
  (** [core.i18n_helper._t]: the translation of a message key. *)
  _t : string -> string;
  (** [core.runner.runner(action=..., config=...)]. *)
  runner : action -> gmap string (gmap string value) -> value;
  (** [dateutil.parser.parse]: [None] stands for a raised [ParserError]. *)
  datetime : Type;
  dateutil_parse : string -> option datetime;
  (** [.strftime("%Y-%m-%d %H:%M:%S")] and [str()] of a datetime. *)
  strftime : datetime -> string;
  str_datetime : datetime -> string;
  (** [BytesConverter(size).human]. *)
  human : Z -> string;
  (** [os.name]. *)
  os_name : string;
  (** [ntpath.dirname]: what [os.path.dirname] is where [os.name] is
      nt. It cuts at backslashes and after a drive as well. *)
  ntpath_dirname : string -> string;
  (** [str.upper] and [str.lower]. They know the case of every letter
      of Unicode: on a text in ASCII [upper] is the mapping of ASCII,
      and [lower] does not tell apart two texts that differ only in
      the case of their letters A-Z. *)
  str_upper : string -> string;
  str_lower : string -> string;
  str_upper_ascii :
    forall s, Str.isascii s = true -> str_upper s = Str.upper s;
  str_lower_nocase :
    forall s1 s2, Str.lower s1 = Str.lower s2 -> str_lower s1 = str_lower s2;
  (** [customization.folder_icon] and [customization.file_icon]. *)
  folder_icon : string;
  file_icon : string;
}.

(** ** The GUI monad: a result and the toolkit/adapter calls made *)

Inductive event : Type :=
| EPopup (msg : string)
| EPopupError (msg : string)
| EPopupAnimated (msg : option string)
| ERunner (a : action)
| ESubmit (task : string).

Definition gui (A : Type) : Type := list event * res A.

Definition gret {A} (a : A) : gui A := ([], Ok a).

Definition gbind {A B} (m : gui A) (f : A -> gui B) : gui B :=
  match m with
  | (tr, Ok a) => let '(tr', r) := f a in (tr ++ tr', r)
  | (tr, Raise e) => (tr, Raise e)
  end.

Definition emit (e : event) : gui unit := ([e], Ok tt).

Definition lift {A} (r : res A) : gui A := ([], r).

(** [try: body except KeyError: handler] *)
Definition try_KeyError {A} (body : gui A) (handler : gui A) : gui A :=
  match body with
  | (tr, Raise (KeyError _)) => let '(tr', r) := handler in (tr ++ tr', r)
  | other => other
  end.

Notation "x <~ m ;; k" := (gbind m (fun x => k))
  (at level 100, m at next level, k at level 200, right associativity).
Notation "m ;;; k" := (gbind m (fun _ => k))
  (at level 100, k at level 200, right associativity).

(** The tasks submitted through [@threaded]. *)
Definition submitted (tr : list event) : list string :=
  omap (fun e => match e with ESubmit t => Some t | _ => None end) tr.

Section Gui.
Context `{E : Externals}.

(** *** [_get_gui_data] (the body run by the worker) *)

(** ["{} {} {} {}@{} [ID {}]".format(...)] *)
Definition format_entry (backup_from date run_as username hostname id : string)
  : string :=
  backup_from +:+ " " +:+ date +:+ " " +:+ run_as +:+ " " +:+ username
    +:+ "@" +:+ hostname +:+ " [ID " +:+ id +:+ "]".

(** The body of the [for snapshot in snapshots] loop. *)
Definition snapshot_entry (snapshot : gmap string string) : res string :=
  time <- getitem snapshot "time" ;;
  snapshot_date <-
    match dateutil_parse time with
    | Some d => Ok (strftime d)
    | None => Raise ParserError
    end ;;
  snapshot_username <- getitem snapshot "username" ;;
  snapshot_hostname <- getitem snapshot "hostname" ;;
  snapshot_id <- getitem snapshot "short_id" ;;
  Ok (format_entry (_t "main_gui.backup_from") snapshot_date
        (_t "main_gui.run_as") snapshot_username snapshot_hostname snapshot_id).

Definition _get_gui_data (config : gmap string (gmap string value))
  : res (value * list string) :=
  let snapshots := runner Alist config in
  let current_state := runner Ahas_recent_snapshots config in
  snapshot_list <-
    (if truthy snapshots then
       match snapshots with
       | VRecords l => for_each snapshot_entry (rev l)
       | _ => Raise AttributeError
       end
     else Ok []) ;;
  Ok (current_state, snapshot_list).

(** *** [get_gui_data] *)

Definition repo_entry (config : gmap string (gmap string value)) (k : string)
  : res value :=
  repo <- getitem config "repo" ;;
  getitem repo k.

(** The loop [while not thread.done() and not thread.cancelled()] that
    shows the loader: [polls] is the number of times the task was found
    still running. *)
Fixpoint wait_animated (msg : string) (polls : nat) : gui unit :=
  match polls with
  | O => emit (EPopupAnimated None)
  | S n => emit (EPopupAnimated (Some msg)) ;;; wait_animated msg n
  end.

(** The guard of [get_gui_data]: [Some r] is an early [return r]. *)
Definition repository_guard (config : gmap string (gmap string value))
  : gui (option (value * option (list string))) :=
  try_KeyError
    (repository <~ lift (repo_entry config "repository") ;;
     if negb (truthy repository) then
       password <~ lift (repo_entry config "password") ;;
       if negb (truthy password) then
         emit (EPopup (_t "main_gui.repository_not_configured")) ;;;
         gret (Some (VNone, None))
       else gret None
     else gret None)
    (emit (EPopup (_t "main_gui.repository_not_configured")) ;;;
     gret (Some (VNone, None))).

Definition get_gui_data (polls : nat) (config : gmap string (gmap string value))
  : gui (value * option (list string)) :=
  early <~ repository_guard config ;;
  match early with
  | Some r => gret r
  | None =>
      emit (ERunner Acheck_binary) ;;;
      let result := runner Acheck_binary config in
      if negb (truthy result) then
        emit (EPopup (_t "config_gui.no_binary")) ;;;
        gret (VNone, None)
      else
        emit (ESubmit "_get_gui_data") ;;;
        wait_animated (_t "main_gui.loading_data_from_repo") polls ;;;
        r <~ lift (_get_gui_data config) ;;
        gret (fst r, Some (snd r))
  end.

(** *** [_gui_update_state] *)

(** The two widgets of the main window that [_gui_update_state]
    touches: the state button (text, button colour) and the listbox. *)
Record window : Type := {
  state_button : string * (string * string);
  snapshot_list : list string;
}.

Definition update_button (w : window) (text : string) (color : string * string)
  : window :=
  {| state_button := (text, color); snapshot_list := snapshot_list w |}.

(** [Listbox.Update(values)]: [None] leaves the values as they are. *)
Definition update_list (w : window) (values : option (list string)) : window :=
  match values with
  | Some l => {| state_button := state_button w; snapshot_list := l |}
  | None => w
  end.

Definition _gui_update_state (w : window) (current_state : value)
    (snapshots : option (list string)) : window :=
  let w' :=
    if truthy current_state then
      update_button w (_t "generic.up_to_date") ("white", "springgreen4")
    else if is_False current_state then
      update_button w (_t "generic.too_old") ("white", "darkred")
    else if is_None current_state then
      update_button w (_t "generic.not_connected") ("white", "darkgrey")
    else w in
  update_list w' snapshots.

End Gui.

(** ** [_ls_window]: the header record of an [ls] result *)

Section LsWindow.
Context `{E : Externals}.

Definition inconnu : string := "[inconnu]".

(** [try: x = d[k] except (KeyError, IndexError): x = '[inconnu]'] *)
Definition or_inconnu (r : res string) : res string :=
  match r with
  | Raise (KeyError _) | Raise IndexError => Ok inconnu
  | other => other
  end.

(** The part of [_ls_window] that reads the header record
    [snapshot_id = next(result)] and builds [backup_content]. *)
Definition ls_header (snapshot_id : gmap string string) : res string :=
  snap_date <-
    or_inconnu
      (time <- getitem snapshot_id "time" ;;
       match dateutil_parse time with
       | Some d => Ok (str_datetime d)
       | None => Raise ParserError
       end) ;;
  short_id <- or_inconnu (getitem snapshot_id "short_id") ;;
  username <- or_inconnu (getitem snapshot_id "username") ;;
  hostname <- or_inconnu (getitem snapshot_id "hostname") ;;
  Ok (" " +:+ _t "main_gui.backup_content_from" +:+ " " +:+ snap_date
        +:+ " " +:+ _t "main_gui.run_as" +:+ " " +:+ username +:+ "@"
        +:+ hostname +:+ " " +:+ _t "main_gui.identified_by" +:+ " "
        +:+ short_id).

End LsWindow.

(** ** [ls_window]: the snapshot id read back from a listbox entry *)

Module Re.

(** The fragment of Python's [re] that the pattern of [ls_window]
    uses: literal characters, the greedy [.*] (where [.] is any
    character but a newline) and one capturing group. *)
Inductive item : Type :=
| Lit (c : ascii)
| DotStar
| Open
| Close.

(** Backtracking match of the pattern [p] at the head of [s], as
    [re.match] does it: [.*] first takes as many characters as it can
    and gives them back one at a time while the rest of the pattern
    fails. [start] is the input at the last [Open]; the result is the
    list of captured groups. *)
Fixpoint run (p : list item) (s : string) (start : option string)
    (groups : list string) : option (list string) :=
  match p with
  | [] => Some groups
  | Lit c :: p' =>
      match s with
      | String d s' => if Ascii.eqb d c then run p' s' start groups else None
      | EmptyString => None
      end
  | DotStar :: p' =>
      (fix star (s : string) : option (list string) :=
         match s with
         | String d s' =>
             if Ascii.eqb d Str.newline then run p' s start groups
             else match star s' with
                  | Some g => Some g
                  | None => run p' s start groups
                  end
         | EmptyString => run p' s start groups
         end) s
  | Open :: p' => run p' s (Some s) groups
  | Close :: p' =>
      match start with
      | Some s0 =>
          run p' s None
            (groups ++ [String.substring 0 (String.length s0 - String.length s) s0])
      | None => None
      end
  end.

Definition rmatch (p : list item) (s : string) : option (list string) :=
  run p s None [].

(** The pattern of [ls_window]: any run, the literal text
    bracket-I-D-space, a captured run, a closing bracket, any run. *)
Definition id_pattern : list item :=
  [DotStar; Lit "["; Lit "I"; Lit "D"; Lit " "; Open; DotStar; Close;
   Lit "]"; DotStar]%char.

End Re.

(** [re.match(pattern, snapshot).group(1)]: no match gives [None],
    whose [.group] raises [AttributeError]. *)
Definition ls_window_snapshot_id (snapshot : string) : res string :=
  match Re.rmatch Re.id_pattern snapshot with
  | Some (g :: _) => Ok g
  | Some [] => Raise IndexError
  | None => Raise AttributeError
  end.

(** ** [_make_treedata_from_json] *)

(** [PySimpleGUI.TreeData], the toolkit's container that
    [_make_treedata_from_json] fills: node objects live in a store and
    are named by their position in it, so that a key inserted twice
    leaves the first node in its parent's [children]. *)
Module TreeData.

Record Node : Type := {
  parent : string;
  key : string;
  text : string;
  values : list string;
  icon : string;
  children : list nat;
}.

Record t : Type := {
  nodes : list Node;
  tree_dict : gmap string nat;
}.

(** [__init__]: the root node, under the empty key. *)
Definition init : t :=
  {| nodes := [ {| parent := ""; key := ""; text := "root"; values := [];
                   icon := ""; children := [] |} ];
     tree_dict := {[ "" := 0%nat ]} |}.

(** [Node._Add] *)
Definition _Add (child : nat) (n : Node) : Node :=
  {| parent := parent n; key := key n; text := text n; values := values n;
     icon := icon n; children := children n ++ [child] |}.

(** [Insert]: [self.tree_dict[key] = node], then
    [self.tree_dict[parent]._Add(node)], which raises [KeyError] for a
    parent that has no node. *)
Definition Insert (td : t) (parent key text : string) (values : list string)
    (icon : string) : res t :=
  let id := length (nodes td) in
  let node := {| parent := parent; key := key; text := text;
                 values := values; icon := icon; children := [] |} in
  let dict := <[key := id]> (tree_dict td) in
  parent_node <- getitem dict parent ;;
  Ok {| nodes := alter (_Add id) parent_node (nodes td ++ [node]);
        tree_dict := dict |}.

(** [key in self.tree_dict] *)
Definition has_key (td : t) (k : string) : bool :=
  bool_decide (is_Some (tree_dict td !! k)).

End TreeData.

(** A tree node record of an [ls] result; directories carry no [size]. *)
Record entry : Type := {
  e_name : string;
  e_type : string;
  e_path : string;
  e_size : option Z;
  e_mtime : string;
}.

Section TreeDataFromJson.
Context `{E : Externals}.

Definition all_slashes (s : string) : bool :=
  String.eqb (Str.lstrip "/" s) "".

(** [posixpath.dirname]. *)
Definition posix_dirname (p : string) : string :=
  let head := Str.upto_last "/" p in
  if negb (String.eqb head "") && negb (all_slashes head)
  then Str.rstrip "/" head else head.

(** [os.path.dirname]: [os.path] is [ntpath] where [os.name] is nt and
    [posixpath] elsewhere. *)
Definition dirname (p : string) : string :=
  if String.eqb os_name "nt" then ntpath_dirname p else posix_dirname p.

(** The tree key of an entry: its path without the leading slashes,
    in lower case on Windows. *)
Definition tree_key (e : entry) : string :=
  let path := Str.lstrip "/" (e_path e) in
  if String.eqb os_name "nt" then str_lower path else path.

(** One turn of the loop [for entry in ls_result]. *)
Definition tree_step (treedata : TreeData.t) (e : entry) : res TreeData.t :=
  let path := tree_key e in
  let parent := dirname path in
  mtime <-
    match dateutil_parse (e_mtime e) with
    | Some d => Ok (strftime d)
    | None => Raise ParserError
    end ;;
  if String.eqb (e_type e) "dir" && negb (TreeData.has_key treedata path) then
    TreeData.Insert treedata parent path (e_name e) [""; mtime] folder_icon
  else if String.eqb (e_type e) "file" then
    size <-
      match e_size e with
      | Some n => Ok (human n)
      | None => Raise (KeyError "size")
      end ;;
    TreeData.Insert treedata parent path (e_name e) [size; mtime] file_icon
  else Ok treedata.

Fixpoint tree_loop (treedata : TreeData.t) (ls_result : list entry)
  : res TreeData.t :=
  match ls_result with
  | [] => Ok treedata
  | e :: rest => td <- tree_step treedata e ;; tree_loop td rest
  end.

Definition _make_treedata_from_json (ls_result : list entry) : res TreeData.t :=
  tree_loop TreeData.init ls_result.

End TreeDataFromJson.

(** ** [main_gui]: the backup destination shown above the list *)

Section MainGuiDestination.
Context `{E : Externals}.

Definition backends : list string :=
  ["REST"; "S3"; "B2"; "SFTP"; "SWIFT"; "AZURE"; "GZ"; "RCLONE"].

(** [repository.split(':')[0].upper()]; only [str] has [split]. *)
Definition backend_of (repository : value) : res string :=
  match repository with
  | VStr s =>
      match Str.split ":" s with
      | h :: _ => Ok (str_upper h)
      | [] => Raise IndexError
      end
  | _ => Raise AttributeError
  end.

(** The first lines of [main_gui]: [(backend_type, backup_destination)]. *)
Definition main_gui_destination (config : gmap string (gmap string value))
  : res (option string * string) :=
  let backup_destination := _t "main_gui.local_folder" in
  match (repository <- repo_entry config "repository" ;; backend_of repository) with
  | Ok backend_type =>
      if Str.in_list backend_type backends
      then Ok (Some backend_type,
               _t "main_gui.external_server" +:+ " " +:+ backend_type)
      else Ok (Some backend_type, backup_destination)
  | Raise (KeyError _) | Raise AttributeError | Raise TypeError =>
      Ok (None, backup_destination)
  | Raise e => Raise e
  end.

End MainGuiDestination.

(** ** [main_gui]: the loop that shows the output of a running backup *)

(** The worker (the [@threaded] [_gui_backup]) writes its progress lines
    to [stdout = queue.Queue()] and then completes; the coordinator runs
    [while not thread.done() and not thread.cancelled()], taking at most
    one line per turn with [stdout.get(timeout=.01)]. The two advance in
    any order: a schedule says who moves next. *)
Module Progress.

(** Where the coordinator is: about to test the loop condition, about
    to return from [stdout.get], or past the loop. *)
Inductive pc : Type := AtTest | AtGet | Exited.

Record state : Type := {
  pending : list string;    (* lines the task has still to write *)
  queue : list string;      (* the content of [stdout], oldest first *)
  done : bool;              (* [thread.done()] *)
  cancelled : bool;         (* [thread.cancelled()] *)
  at_pc : pc;
  shown : list string;      (* the arguments of [Update], in order *)
}.

Definition start (lines : list string) : state :=
  {| pending := lines; queue := []; done := false; cancelled := false;
     at_pc := AtTest; shown := [] |}.

(** The task writes its next line, or completes when it has none left. *)
Definition worker_step (s : state) : state :=
  if done s then s
  else match pending s with
       | line :: rest =>
           {| pending := rest; queue := queue s ++ [line]; done := false;
              cancelled := cancelled s; at_pc := at_pc s; shown := shown s |}
       | [] =>
           {| pending := []; queue := queue s; done := true;
              cancelled := cancelled s; at_pc := at_pc s; shown := shown s |}
       end.

Definition goto (s : state) (p : pc) : state :=
  {| pending := pending s; queue := queue s; done := done s;
     cancelled := cancelled s; at_pc := p; shown := shown s |}.

(** [stdout.get(timeout=.01)] followed by the [else] branch: a line is
    taken from the queue and, if it is not empty, shown; an empty queue
    is [queue.Empty], which is passed over. *)
Definition get_step (s : state) : state :=
  match queue s with
  | stdout_line :: rest =>
      {| pending := pending s; queue := rest; done := done s;
         cancelled := cancelled s; at_pc := AtTest;
         shown := if negb (String.eqb stdout_line "")
                  then shown s ++ [stdout_line] else shown s |}
  | [] => goto s AtTest
  end.

Definition coordinator_step (s : state) : state :=
  match at_pc s with
  | AtTest =>
      if negb (done s) && negb (cancelled s) then goto s AtGet
      else goto s Exited
  | AtGet => get_step s
  | Exited => s
  end.

Inductive actor : Type := Worker | Coordinator.

Definition step (a : actor) (s : state) : state :=
  match a with
  | Worker => worker_step s
  | Coordinator => coordinator_step s
  end.

Fixpoint run (schedule : list actor) (s : state) : state :=
  match schedule with
  | [] => s
  | a :: rest => run rest (step a s)
  end.

(** The task has completed and the coordinator has left its loop. *)
Definition finished (s : state) : bool :=
  done s && match at_pc s with Exited => true | _ => false end.

Definition nonempty (l : string) : bool := negb (String.eqb l "").

End Progress.

(** ** The task handle behind [@threaded] *)

(** Modelled from the spec: the task handle returned by a function
    decorated with [ofunctions.threading.threaded], which is not among
    the sources. After the spec (sections 3 and 4.1): a handle wraps one
    operation and has a completion flag, a cancellation flag and a result
    slot populated exactly once on completion; [result()] blocks until
    the task is done and returns the operation's value or re-raises its
    failure. [runs] counts the executions of the operation, [W] is what
    the operation acts on. *)
Module Task.
Section Handle.
Context {W R : Type}.

Record handle : Type := {
  operation : W -> res R * W;
  is_done : bool;
  is_cancelled : bool;
  slot : option (res R);
  runs : nat;
}.

Definition submit (op : W -> res R * W) : handle :=
  {| operation := op; is_done := false; is_cancelled := false;
     slot := None; runs := 0 |}.

(** The worker runs the operation and fills the slot; a handle that
    is done is left alone. *)
Definition complete (h : handle) (w : W) : handle * W :=
  if is_done h then (h, w)
  else
    let '(r, w') := operation h w in
    ({| operation := operation h; is_done := true;
        is_cancelled := is_cancelled h; slot := Some r;
        runs := S (runs h) |}, w').

(** [result()]: wait for the worker, then read the slot. *)
Definition result (h : handle) (w : W) : option (res R) * (handle * W) :=
  let '(h', w') := complete h w in
  (slot h', (h', w')).

End Handle.
End Task.

(** ** A concrete environment, for running the definitions *)

(** [ntpath.dirname] on a path that does not start with two separators
    (no UNC share) and whose drive, when it has one, is not followed by
    two separators: the drive is the first two characters when the
    second is a colon; the rest is cut after its last slash or
    backslash, and the separators at the end of that head are dropped
    unless it has nothing else. *)
Module NtPath.

Definition backslash : ascii := ascii_of_nat 92.

Definition is_sep (c : ascii) : bool :=
  Ascii.eqb c "/" || Ascii.eqb c backslash.

Fixpoint has_sep (s : string) : bool :=
  match s with
  | EmptyString => false
  | String c s' => is_sep c || has_sep s'
  end.

(** [p[:i]] where [i] is the index after the last separator of [p]. *)
Fixpoint upto_last_sep (s : string) : string :=
  match s with
  | EmptyString => EmptyString
  | String c s' =>
      if has_sep s then String c (upto_last_sep s') else EmptyString
  end.

(** [s.rstrip(seps)] *)
Fixpoint rstrip_seps (s : string) : string :=
  match s with
  | EmptyString => EmptyString
  | String c s' =>
      match rstrip_seps s' with
      | EmptyString => if is_sep c then EmptyString else String c EmptyString
      | r => String c r
      end
  end.

(** [splitdrive] *)
Definition splitdrive (p : string) : string * string :=
  match p with
  | String c (String ":" rest) => (String c ":", rest)
  | _ => (EmptyString, p)
  end.

Definition dirname (p : string) : string :=
  let '(drive, rest) := splitdrive p in
  let head := upto_last_sep rest in
  drive +:+ match rstrip_seps head with
            | EmptyString => head
            | stripped => stripped
            end.

End NtPath.


(** An adapter that answers [snapshots] to [list], [state] to
    [has_recent_snapshots] and [binary] to [check-binary]; translations
    are the message keys themselves; dates are kept as their text, the
    empty text being the one that does not parse; the case mappings
    are those of ASCII, for running on texts in ASCII. *)
Definition fixed_env (snapshots state binary : value) : Externals :=
  {| _t := fun k => k;
     runner := fun a _ =>
       match a with
       | Alist => snapshots
       | Ahas_recent_snapshots => state
       | Acheck_binary => binary
       | _ => VNone
       end;
     datetime := string;
     dateutil_parse := fun s => if String.eqb s "" then None else Some s;
     strftime := fun d => d;
     str_datetime := fun d => d;
     human := fun n => "size";
     os_name := "posix";
     ntpath_dirname := NtPath.dirname;
     str_upper := Str.upper;
     str_lower := Str.lower;
     str_upper_ascii := fun s _ => eq_refl;
     str_lower_nocase := fun _ _ H => H;
     folder_icon := "folder_icon";
     file_icon := "file_icon" |}.

(** ** Vocabulary of the statements *)

(** [config['repo'][k]] as a lookup: [None] when the section or the
    entry is missing. *)
Definition lookup_entry (config : gmap string (gmap string value)) (k : string)
  : option value :=
  match config !! "repo" with
  | Some repo => repo !! k
  | None => None
  end.

(** A configuration entry that is missing or empty (falsy). *)
Definition missing_or_empty (o : option value) : Prop :=
  match o with
  | None => True
  | Some v => truthy v = false
  end.

(** The text before the first colon of [s] (all of [s] without one). *)
Fixpoint before_colon (s : string) : string :=
  match s with
  | EmptyString => EmptyString
  | String c s' =>
      if Ascii.eqb c ":" then EmptyString else String c (before_colon s')
  end.


Section Vocabulary.
Context `{E : Externals}.

(** A snapshot record with its four fields, whose time is a date. *)
Definition complete_snapshot (s : gmap string string) : Prop :=
  (exists t, s !! "time" = Some t /\ is_Some (dateutil_parse t))
  /\ is_Some (s !! "username")
  /\ is_Some (s !! "hostname")
  /\ is_Some (s !! "short_id").

(** The entries that [_make_treedata_from_json] puts in the tree. *)
Definition inserted (e : entry) : bool :=
  String.eqb (e_type e) "dir" || String.eqb (e_type e) "file".

(** A tree node record whose [mtime] is a date and which, when it is a
    file, has a [size]. *)
Definition fields_ok (e : entry) : Prop :=
  is_Some (dateutil_parse (e_mtime e))
  /\ (e_type e = "file" -> is_Some (e_size e)).

(** Every entry of the tree comes after its parent directory: the
    parent of its key is the root or the key of an earlier entry of the
    tree. *)
Definition parents_first (l : list entry) : Prop :=
  forall i e,
    l !! i = Some e ->
    inserted e = true ->
    dirname (tree_key e) = ""
    \/ exists j e',
         (j < i)%nat /\ l !! j = Some e' /\ inserted e' = true
         /\ tree_key e' = dirname (tree_key e).

End Vocabulary.

(** ** [main_gui]: the destination popup of the right-click menu *)

Module StrExtra.

(** [s.split(sep)[-1]] *)
Definition split_last (sep : ascii) (s : string) : res string :=
  match last (Str.split sep s) with
  | Some x => Ok x
  | None => Raise IndexError
  end.

End StrExtra.

(** What the handler of the [generic.destination] event ends with:
    [PopupNoFrame] of a value, an exception that its [except (TypeError,
    KeyError)] does not catch, or the [UnboundLocalError] of reading a
    local that was never assigned. *)
Inductive destination_popup : Type :=
| NoFrame (shown : value)
| Propagates (e : exn)
| UnboundLocal.

Section DestinationEvent.
Context `{E : Externals}.

(** [if backend_type:] on the [backend_type] that [main_gui] computed. *)
Definition backend_truthy (backend_type : option string) : bool :=
  match backend_type with
  | Some b => negb (String.eqb b "")
  | None => false
  end.

(** The body of [if event == _t("generic.destination")]. The local
    [destination_string] is [bound] on entry ([None]: not assigned yet in
    this call of [main_gui]); the result is the popup and the local on
    exit. *)
Definition destination_event (backend_type : option string)
    (config : gmap string (gmap string value)) (bound : option value)
  : destination_popup * option value :=
  let assigned : res (option value) :=
    match backend_type with
    | Some b =>
        if backend_truthy backend_type then
          if Str.in_list b ["REST"; "SFTP"] then
            repository <- repo_entry config "repository" ;;
            match repository with
            | VStr r => x <- StrExtra.split_last "@" r ;; Ok (Some (VStr x))
            | _ => Raise AttributeError
            end
          else
            repository <- repo_entry config "repository" ;;
            Ok (Some repository)
        else Ok bound
    | None => Ok bound
    end in
  match assigned with
  | Ok (Some v) => (NoFrame v, Some v)
  | Ok None => (UnboundLocal, None)
  | Raise (KeyError _) | Raise TypeError =>
      (NoFrame (VStr (_t "main_gui.unknown_repo")), bound)
  | Raise e => (Propagates e, bound)
  end.

End DestinationEvent.

(** ** [restore_window] *)

(** What [window.read()] returns first. *)
Inductive ui_event : Type :=
| WIN_CLOSED
| WIN_CLOSE_ATTEMPTED_EVENT
| Key (k : string).

Definition ui_event_eqb (a b : ui_event) : bool :=
  match a, b with
  | WIN_CLOSED, WIN_CLOSED => true
  | WIN_CLOSE_ATTEMPTED_EVENT, WIN_CLOSE_ATTEMPTED_EVENT => true
  | Key x, Key y => String.eqb x y
  | _, _ => false
  end.

Section RestoreWindow.
Context `{E : Externals}.

(** The loop of [restore_window] over the successive results of
    [window.read()]: the event and the content of the
    [-RESTORE-FOLDER-] input. The result tells whether the loop was left
    ([window.close()] reached); [false] is a window still waiting for an
    event. [polls] counts the turns of the waiting loop of the restore. *)
Fixpoint restore_window (polls : nat) (config : gmap string (gmap string value))
    (snapshot_id : string) (includes : list string)
    (reads : list (ui_event * string)) : gui bool :=
  match reads with
  | [] => gret false
  | (event, folder) :: rest =>
      if existsb (ui_event_eqb event)
           [WIN_CLOSED; WIN_CLOSE_ATTEMPTED_EVENT; Key "cancel"]
      then gret true
      else if ui_event_eqb event (Key "restore") then
        emit (ESubmit "_restore_window") ;;;
        wait_animated (_t "main_gui.restore_in_progress" +:+ "...") polls ;;;
        let result := runner (Arestore snapshot_id folder includes) config in
        (if truthy result
         then emit (EPopup (_t "main_gui.restore_done"))
         else emit (EPopupError (_t "main_gui.restore_failed"))) ;;;
        gret true
      else restore_window polls config snapshot_id includes rest
  end.

End RestoreWindow.

(** ** Schedules of the backup loop *)

Module Schedules.
Import Progress.

(** The task and the loop in lock step: for each line the loop tests
    its condition, the task writes the line, the loop takes it; then the
    task completes and the loop tests once more. *)
Fixpoint lockstep (n : nat) : list actor :=
  match n with
  | O => [Worker; Coordinator]
  | S k => Coordinator :: Worker :: Coordinator :: lockstep k
  end.

End Schedules.

(** ** Vocabulary of the further statements *)

(** The store of a tree is consistent: a key of [tree_dict] names a node
    of the store that carries this key, and the nodes listed as children
    of a node are nodes of the store whose [parent] is the key of that
    node. *)
Definition tree_wf (td : TreeData.t) : Prop :=
  (forall k id,
      TreeData.tree_dict td !! k = Some id ->
      exists n, TreeData.nodes td !! id = Some n /\ TreeData.key n = k)
  /\ (forall i n c,
         TreeData.nodes td !! i = Some n ->
         In c (TreeData.children n) ->
         exists m, TreeData.nodes td !! c = Some m
                   /\ TreeData.parent m = TreeData.key n).

(** An entry with another path. *)
Definition with_path (e : entry) (p : string) : entry :=
  {| e_name := e_name e; e_type := e_type e; e_path := p;
     e_size := e_size e; e_mtime := e_mtime e |}.

(** The environment [fixed_env] on Windows. *)
Definition nt_env : Externals :=
  {| _t := fun k => k;
     runner := fun _ _ => VNone;
     datetime := string;
     dateutil_parse := fun s => if String.eqb s "" then None else Some s;
     strftime := fun d => d;
     str_datetime := fun d => d;
     human := fun n => "size";
     os_name := "nt";
     ntpath_dirname := NtPath.dirname;
     str_upper := Str.upper;
     str_lower := Str.lower;
     str_upper_ascii := fun s _ => eq_refl;
     str_lower_nocase := fun _ _ H => H;
     folder_icon := "folder_icon";
     file_icon := "file_icon" |}.

(** An adapter whose restores succeed exactly for the target [good]. *)
Definition restore_env (good : string) : Externals :=
  {| _t := fun k => k;
     runner := fun a _ =>
       match a with
       | Arestore _ target _ => VBool (String.eqb target good)
       | _ => VNone
       end;
     datetime := string;
     dateutil_parse := fun s => if String.eqb s "" then None else Some s;
     strftime := fun d => d;
     str_datetime := fun d => d;
     human := fun n => "size";
     os_name := "posix";
     ntpath_dirname := NtPath.dirname;
     str_upper := Str.upper;
     str_lower := Str.lower;
     str_upper_ascii := fun s _ => eq_refl;
     str_lower_nocase := fun _ _ H => H;
     folder_icon := "folder_icon";
     file_icon := "file_icon" |}.

(** ** The build script (bin/compile.py) *)

Module Build.

(** [x in s] for two texts. *)
Fixpoint contains (sub s : string) : bool :=
  String.prefix sub s
  || match s with
     | EmptyString => false
     | String _ s' => contains sub s'
     end.

Definition starts_with (c : ascii) (s : string) : bool :=
  match s with
  | String d _ => Ascii.eqb d c
  | EmptyString => false
  end.

Fixpoint ends_with (c : ascii) (s : string) : bool :=
  match s with
  | EmptyString => false
  | String d EmptyString => Ascii.eqb d c
  | String _ s' => ends_with c s'
  end.

(** [s.replace(old, new)] for a non-empty [old]: the occurrences of
    [old] are replaced from left to right, without overlap. [skip] is
    the number of characters of a replaced occurrence still to pass. *)
Fixpoint replace_go (old new : string) (skip : nat) (s : string) : string :=
  match s with
  | EmptyString => EmptyString
  | String c s' =>
      match skip with
      | S k => replace_go old new k s'
      | O =>
          if String.prefix old s
          then new +:+ replace_go old new (String.length old - 1) s'
          else String c (replace_go old new 0 s')
      end
  end.

Definition replace (old new s : string) : string := replace_go old new 0 s.

(** [os.path.join], [os.path.basename] and [os.pardir] ([posixpath]). *)
Definition join2 (path b : string) : string :=
  if starts_with "/" b then b
  else if String.eqb path "" || ends_with "/" path then path +:+ b
  else path +:+ "/" +:+ b.

Definition join (a : string) (p : list string) : string :=
  fold_left join2 p a.

Fixpoint basename (p : string) : string :=
  match p with
  | EmptyString => EmptyString
  | String c p' => if Str.mem "/" p' then basename p' else
                     if Ascii.eqb c "/" then p' else p
  end.

Definition pardir : string := "..".

(** What the script finds around it. *)
Class Env : Type := {
  os_name : string;
  BASEDIR : string;
  sys_executable : string;
  (** [sys.version_info[0]] and [sys.version_info[1]] *)
  version_major : N;
  version_minor : N;
  npbackup_version : string;
  installer_version : string;
  COMPANY_NAME : string;
  TRADEMARKS : string;
  PRODUCT_NAME : string;
  FILE_DESCRIPTION : string;
  COPYRIGHT : string;
  LICENSE_FILE : string;
  (** Whether [import npbackup._private_secret_keys],
      [import npbackup.secret_keys] and
      [import nuitka.plugins.commercial] succeed. *)
  has_private_secret_keys : bool;
  has_secret_keys : bool;
  has_nuitka_commercial : bool;
  isfile : string -> bool;
  isdir : string -> bool;
  abspath : string -> string;
  (** [get_restic_internal_binary(arch)]; [None] is Python's [None]. *)
  get_restic_internal_binary : string -> option string;
  (** The exit code of [command_runner(CMD, ...)]. *)
  command_runner : string -> Z;
}.

Inductive event : Type :=
| Print (text : string)
| Makedirs (dir : string)
| Command (cmd : string).

(** The commands run, in order. *)
Definition commands (tr : list event) : list string :=
  omap (fun e => match e with Command c => Some c | _ => None end) tr.

Section Script.
Context `{B : Env}.

Definition get_private_conf_dist_file : list event * string :=
  let private_dist_conf_file := "_private_npbackup.conf.dist" in
  let dist_conf_file := "npbackup.conf.dist" in
  let dist_conf_file_path :=
    join BASEDIR [pardir; "examples"; private_dist_conf_file] in
  if isfile dist_conf_file_path
  then ([Print "Building with private dist config file"], dist_conf_file_path)
  else ([Print "Building with default dist config file"],
        join BASEDIR [pardir; "examples"; dist_conf_file]).

(** [None] is the [SystemExit] of [sys.exit()]. *)
Definition check_private_build : list event * option bool :=
  let '(tr1, keys) :=
    if has_private_secret_keys
    then ([Print "WARNING: Building with private secret key"], Some true)
    else if has_secret_keys
    then ([Print "Building with default secret key"], Some false)
    else ([Print "Cannot find secret keys"], None) in
  match keys with
  | None => (tr1, None)
  | Some private =>
      let '(tr2, dist_conf_file_path) := get_private_conf_dist_file in
      if contains "_private" dist_conf_file_path
      then (tr1 ++ tr2
              ++ [Print "WARNING: Building with a private conf.dist file"],
            Some true)
      else (tr1 ++ tr2, Some private)
  end.

Definition have_nuitka_commercial : list event * bool :=
  if has_nuitka_commercial
  then ([Print "Running with nuitka commercial"], true)
  else ([Print "Running with nuitka open source"], false).

(** [version.split("-")[0]] *)
Definition strip_version (version : string) : string :=
  match Str.split "-" version with
  | h :: _ => h
  | [] => EmptyString
  end.

(** The double quote of the command lines. *)
Definition q : string := String (ascii_of_nat 34) EmptyString.

Definition exe_options (file_version product_version file_description : string)
  : string :=
  "--company-name=" +:+ q +:+ COMPANY_NAME +:+ q
    +:+ " --product-name=" +:+ q +:+ PRODUCT_NAME +:+ q
    +:+ " --file-version=" +:+ q +:+ file_version +:+ q
    +:+ " --product-version=" +:+ q +:+ product_version +:+ q
    +:+ " --copyright=" +:+ q +:+ COPYRIGHT +:+ q
    +:+ " --file-description=" +:+ q +:+ file_description +:+ q
    +:+ " --trademarks=" +:+ q +:+ TRADEMARKS +:+ q.

(** The option [name="source"="dest"]. *)
Definition include (name source dest : string) : string :=
  name +:+ "=" +:+ q +:+ source +:+ q +:+ "=" +:+ q +:+ dest +:+ q.

(** The option [name="value"]. *)
Definition quoted (name value : string) : string :=
  name +:+ "=" +:+ q +:+ value +:+ q.

(** Python's truth of the answer of [get_restic_internal_binary]. *)
Definition found (r : option string) : bool :=
  match r with
  | Some f => negb (String.eqb f "")
  | None => false
  end.

(** [str(errors)] *)
Definition str_bool (b : bool) : string := if b then "True" else "False".

(** [compile(arch)]: the calls it makes and whether it returned
    ([false]: it was left by [sys.exit()]). *)
Definition compile (arch : string) : list event * bool :=
  let program_executable :=
    if String.eqb os_name "nt" then "npbackup.exe" else "npbackup" in
  let restic_executable :=
    if String.eqb os_name "nt" then "restic.exe" else "restic" in
  let PACKAGE_DIR := "npbackup" in
  let '(tr_private, checked) := check_private_build in
  match checked with
  | None => (tr_private, false)
  | Some is_private =>
      let build_dir := "BUILDS" +:+ (if is_private then "-PRIVATE" else "") in
      let OUTPUT_DIR := abspath (join BASEDIR [pardir; build_dir]) in
      let tr_dir := if negb (isdir OUTPUT_DIR) then [Makedirs OUTPUT_DIR] else [] in
      let PYTHON_EXECUTABLE := sys_executable in
      let _npbackup_version := strip_version npbackup_version in
      let PRODUCT_VERSION := _npbackup_version +:+ ".0" in
      let FILE_VERSION := _npbackup_version +:+ ".0" in
      let file_description :=
        FILE_DESCRIPTION +:+ " P" +:+ pretty version_minor +:+ "-" +:+ arch
          +:+ (if is_private then "priv" else "") in
      let restic_source := get_restic_internal_binary arch in
      if negb (found restic_source) then
        (tr_private ++ tr_dir ++ [Print "Cannot find restic source file."], true)
      else
        let restic_source_file := default EmptyString restic_source in
        let restic_dest_file := join PACKAGE_DIR [restic_executable] in
        let output_arch_dir :=
          join OUTPUT_DIR
            ["win-p" +:+ pretty version_major +:+ pretty version_minor
               +:+ "-" +:+ arch] in
        let translations_dir := "translations" in
        let translations_dir_source := join BASEDIR [translations_dir] in
        let translations_dir_dest := join PACKAGE_DIR [translations_dir] in
        let license_dest_file := join PACKAGE_DIR [basename LICENSE_FILE] in
        let icon_file := join PACKAGE_DIR ["npbackup_icon.ico"] in
        let program_executable_path := join output_arch_dir [program_executable] in
        let '(tr_conf, dist_conf_file_source) := get_private_conf_dist_file in
        let dist_conf_file_dest :=
          basename (replace "_private_" "" dist_conf_file_source) in
        let excludes_dir := "excludes" in
        let excludes_dir_source := join BASEDIR [pardir; excludes_dir] in
        let excludes_dir_dest := excludes_dir in
        let '(tr_nuitka, commercial) := have_nuitka_commercial in
        let NUITKA_OPTIONS :=
          if commercial then "--enable-plugin=data-hiding" else "" in
        let EXE_OPTIONS := exe_options FILE_VERSION PRODUCT_VERSION file_description in
        let CMD :=
          PYTHON_EXECUTABLE
            +:+ " -m nuitka --python-flag=no_docstrings --python-flag=-O "
            +:+ NUITKA_OPTIONS +:+ " " +:+ EXE_OPTIONS
            +:+ " --onefile --plugin-enable=tk-inter "
            +:+ include "--include-data-dir" translations_dir_source
                  translations_dir_dest
            +:+ " " +:+ include "--include-data-file" LICENSE_FILE license_dest_file
            +:+ " " +:+ include "--include-data-file" restic_source_file
                          restic_dest_file
            +:+ " " +:+ quoted "--windows-icon-from-ico" icon_file
            +:+ " " +:+ quoted "--output-dir" output_arch_dir
            +:+ " bin/npbackup" in
        let exit_code := command_runner CMD in
        let errors := negb (exit_code =? 0)%Z in
        let _installer_version := strip_version installer_version in
        let PRODUCT_VERSION := _installer_version +:+ ".0" in
        let FILE_VERSION := _installer_version +:+ ".0" in
        let EXE_OPTIONS := exe_options FILE_VERSION PRODUCT_VERSION file_description in
        let CMD2 :=
          PYTHON_EXECUTABLE
            +:+ " -m nuitka --python-flag=no_docstrings --python-flag=-O "
            +:+ NUITKA_OPTIONS +:+ " " +:+ EXE_OPTIONS
            +:+ " --onefile --plugin-enable=tk-inter "
            +:+ include "--include-data-file" program_executable_path
                  program_executable
            +:+ " " +:+ include "--include-data-file" dist_conf_file_source
                          dist_conf_file_dest
            +:+ " " +:+ include "--include-data-dir" excludes_dir_source
                          excludes_dir_dest
            +:+ " " +:+ quoted "--windows-icon-from-ico" icon_file
            +:+ " --windows-uac-admin "
            +:+ quoted "--output-dir" output_arch_dir
            +:+ " bin/NPBackupInstaller.py" in
        let exit_code2 := command_runner CMD2 in
        let errors := if negb (exit_code2 =? 0)%Z then true else errors in
        (tr_private ++ tr_dir ++ tr_conf ++ tr_nuitka
           ++ [Print CMD; Command CMD; Print CMD2; Command CMD2;
               Print ("COMPILE ERRORS " +:+ str_bool errors)],
         true)
  end.

(** The script run as a program: [compile(arch=sys.argv[1])], then
    [check_private_build()] once more. *)
Definition main (arch : string) : list event * bool :=
  let '(tr, returned) := compile arch in
  if returned then
    let '(tr', checked) := check_private_build in
    (tr ++ tr', bool_decide (is_Some checked))
  else (tr, false).

End Script.

(** A build environment for running the script: [keys] tells whether
    the private keys are there, [restic] is the answer for the engine
    binary, [exit_code] the exit code of every command. *)
Definition build_env (basedir : string) (keys : bool) (restic : option string)
    (exit_code : Z) : Env :=
  {| os_name := "posix";
     BASEDIR := basedir;
     sys_executable := "python3";
     version_major := 3;
     version_minor := 10;
     npbackup_version := "2.2.0-dev";
     installer_version := "1.1.7";
     COMPANY_NAME := "NetInvent";
     TRADEMARKS := "NetInvent";
     PRODUCT_NAME := "NPBackup";
     FILE_DESCRIPTION := "Network Backup Client";
     COPYRIGHT := "NetInvent 2022-2023";
     LICENSE_FILE := "/src/npbackup/LICENSE.md";
     has_private_secret_keys := keys;
     has_secret_keys := true;
     has_nuitka_commercial := false;
     isfile := fun _ => false;
     isdir := fun _ => false;
     abspath := fun p => p;
     get_restic_internal_binary := fun _ => restic;
     command_runner := fun _ => exit_code |}.

End Build.

(** The first [k] characters of [s] are no slashes. *)
Fixpoint no_slash_upto (k : nat) (s : string) : bool :=
  match k, s with
  | O, _ => true
  | S _, EmptyString => true
  | S k', String c s' => negb (Ascii.eqb c "/") && no_slash_upto k' s'
  end.

(** * Properties *)

Section GuiProperties.
Context `{E : Externals}.

(** C1. The three values of the [has_recent_snapshots] action are
    rendered as three different states of the state button: [True] as
    "up to date", [False] as "too old", [None] as "not connected"; the
    three renderings are pairwise different. *)
Theorem C1_tri_state_rendering (w : window) (l : option (list string)) :
  state_button (_gui_update_state w (VBool true) l)
    = (_t "generic.up_to_date", ("white", "springgreen4"))
  /\ state_button (_gui_update_state w (VBool false) l)
    = (_t "generic.too_old", ("white", "darkred"))
  /\ state_button (_gui_update_state w VNone l)
    = (_t "generic.not_connected", ("white", "darkgrey"))
  /\ state_button (_gui_update_state w (VBool true) l)
     <> state_button (_gui_update_state w (VBool false) l)
  /\ state_button (_gui_update_state w (VBool true) l)
     <> state_button (_gui_update_state w VNone l)
  /\ state_button (_gui_update_state w (VBool false) l)
     <> state_button (_gui_update_state w VNone l).
Proof.
  assert (Hb : forall w' v, state_button (update_list w' v) = state_button w').
  { intros w' [v|]; reflexivity. }
  unfold _gui_update_state; cbn [truthy is_False is_None].
  rewrite !Hb; cbn.
  repeat split; intros Heq; inversion Heq.
Qed.

(** ** [_get_gui_data] and [get_gui_data] *)

Lemma for_each_Forall2 {A B} (f : A -> res B) (l : list A) :
  Forall (fun x => exists y, f x = Ok y) l ->
  exists ys, for_each f l = Ok ys /\ Forall2 (fun x y => f x = Ok y) l ys.
Proof.
  induction 1 as [|x l [y Hy] _ [ys [Hys HF]]]; cbn.
  - exists []. split; [reflexivity | constructor].
  - exists (y :: ys). rewrite Hy, Hys; cbn. split; [reflexivity|].
    constructor; assumption.
Qed.

Lemma complete_snapshot_entry (s : gmap string string) :
  complete_snapshot s -> exists e, snapshot_entry s = Ok e.
Proof.
  intros [[t [Ht [d Hd]]] [[u Hu] [[h Hh] [i Hi]]]].
  unfold snapshot_entry, getitem.
  rewrite Ht; cbn. rewrite Hd; cbn. rewrite Hu; cbn. rewrite Hh; cbn.
  rewrite Hi; cbn. eexists; reflexivity.
Qed.

Lemma for_each_Ok_Forall2 {A B} (f : A -> res B) (l : list A) :
  forall ys, for_each f l = Ok ys -> Forall2 (fun x y => f x = Ok y) l ys.
Proof.
  induction l as [|x l IH]; cbn; intros ys Hys.
  - injection Hys as <-. constructor.
  - destruct (f x) as [y|] eqn:Hy; cbn in Hys; [|discriminate].
    destruct (for_each f l) as [ys'|]; cbn in Hys; [|discriminate].
    injection Hys as <-. constructor; [exact Hy | apply IH; reflexivity].
Qed.

(** C2. When the adapter answers the non-empty sequence [l] of snapshot
    records to [list], oldest first, the list that [_get_gui_data]
    returns has one formatted entry per snapshot, in the reversed
    order: the i-th entry is the entry of the i-th record of [rev l].
    It does return it when the records have their fields. *)
Theorem C2_snapshot_list_newest_first
    (config : gmap string (gmap string value)) (l : list (gmap string string)) :
  runner Alist config = VRecords l ->
  l <> [] ->
  (forall state entries,
      _get_gui_data config = Ok (state, entries) ->
      length entries = length l
      /\ Forall2 (fun s e => snapshot_entry s = Ok e) (rev l) entries)
  /\ (Forall complete_snapshot l ->
      exists entries,
        _get_gui_data config = Ok (runner Ahas_recent_snapshots config, entries)
        /\ length entries = length l
        /\ Forall2 (fun s e => snapshot_entry s = Ok e) (rev l) entries).
Proof.
  intros Hrun Hne.
  assert (Ht : truthy (VRecords l) = true).
  { destruct l; [congruence | reflexivity]. }
  assert (Hany : forall state entries,
             _get_gui_data config = Ok (state, entries) ->
             length entries = length l
             /\ Forall2 (fun s e => snapshot_entry s = Ok e) (rev l) entries).
  { intros state entries. unfold _get_gui_data. rewrite Hrun, Ht.
    destruct (for_each snapshot_entry (rev l)) as [ys|] eqn:Hfor; cbn;
      [|discriminate].
    intros [= _ <-]. apply for_each_Ok_Forall2 in Hfor. split; [|exact Hfor].
    apply Forall2_length in Hfor. rewrite <- Hfor. apply length_rev. }
  split; [exact Hany|]. intros Hall.
  assert (Hrev : Forall (fun s => exists e, snapshot_entry s = Ok e) (rev l)).
  { apply Forall_forall. intros s Hs. apply complete_snapshot_entry.
    rewrite Forall_forall in Hall. apply Hall. apply list_elem_of_In.
    apply in_rev. apply list_elem_of_In. exact Hs. }
  destruct (for_each_Forall2 _ _ Hrev) as [entries [Hfor _]].
  assert (Hok : _get_gui_data config
                = Ok (runner Ahas_recent_snapshots config, entries)).
  { unfold _get_gui_data. rewrite Hrun, Ht, Hfor. reflexivity. }
  exists entries. split; [exact Hok|]. apply (Hany _ _ Hok).
Qed.

Lemma repository_guard_cases (config : gmap string (gmap string value)) :
  repository_guard config
    = ([EPopup (_t "main_gui.repository_not_configured")], Ok (Some (VNone, None)))
  \/ repository_guard config = ([], Ok None).
Proof.
  unfold repository_guard, repo_entry, getitem.
  destruct (config !! "repo") as [repo|]; cbn; [|left; reflexivity].
  destruct (repo !! "repository") as [v|]; cbn; [|left; reflexivity].
  destruct (truthy v); cbn; [right; reflexivity|].
  destruct (repo !! "password") as [pw|]; cbn; [|left; reflexivity].
  destruct (truthy pw); cbn; [right | left]; reflexivity.
Qed.

(** C3. When [check-binary] answers a falsy value, [get_gui_data]
    returns [(None, None)] after a popup and submits no task: its calls
    are either the popup of the repository guard alone, or the
    [check-binary] call followed by the "no binary" popup, which is
    what happens whenever the repository guard lets the call through. *)
Theorem C3_no_binary_no_task
    (polls : nat) (config : gmap string (gmap string value)) :
  truthy (runner Acheck_binary config) = false ->
  snd (get_gui_data polls config) = Ok (VNone, None)
  /\ submitted (fst (get_gui_data polls config)) = []
  /\ (fst (get_gui_data polls config)
        = [EPopup (_t "main_gui.repository_not_configured")]
      \/ fst (get_gui_data polls config)
        = [ERunner Acheck_binary; EPopup (_t "config_gui.no_binary")])
  /\ (repository_guard config = ([], Ok None) ->
      fst (get_gui_data polls config)
        = [ERunner Acheck_binary; EPopup (_t "config_gui.no_binary")]).
Proof.
  intros Hbin. unfold get_gui_data.
  destruct (repository_guard_cases config) as [Hg | Hg]; rewrite Hg; cbn.
  - repeat split; [left; reflexivity | discriminate].
  - rewrite Hbin; cbn. repeat split; right; reflexivity.
Qed.

(** C4 (amended). When the repository entry is missing, or is empty
    while the password entry is missing or empty as well,
    [get_gui_data] shows the "repository not configured" popup and
    returns [(None, None)]; it calls nothing else and submits no
    task. *)
Theorem C4_not_configured_no_task
    (polls : nat) (config : gmap string (gmap string value)) :
  lookup_entry config "repository" = None
  \/ (missing_or_empty (lookup_entry config "repository")
      /\ missing_or_empty (lookup_entry config "password")) ->
  get_gui_data polls config
    = ([EPopup (_t "main_gui.repository_not_configured")], Ok (VNone, None))
  /\ submitted (fst (get_gui_data polls config)) = [].
Proof.
  intros Hcfg.
  assert (Hg : repository_guard config
            = ([EPopup (_t "main_gui.repository_not_configured")],
               Ok (Some (VNone, None)))).
  { unfold repository_guard, repo_entry, getitem.
    unfold lookup_entry, missing_or_empty in Hcfg.
    destruct (config !! "repo") as [repo|]; cbn; [|reflexivity].
    destruct (repo !! "repository") as [v|]; cbn; [|reflexivity].
    destruct Hcfg as [Hcfg | [Hv Hp]]; [discriminate|].
    rewrite Hv; cbn.
    destruct (repo !! "password") as [pw|]; cbn; [|reflexivity].
    rewrite Hp; reflexivity. }
  unfold get_gui_data. rewrite Hg; cbn. split; reflexivity.
Qed.

End GuiProperties.

(** C2 on two records: the younger one comes first. *)
Lemma C2_snapshot_list_newest_first_witness :
  let s1 : gmap string string :=
    {[ "time" := "2023-01-03T00:16:13"; "username" := "u1";
       "hostname" := "h1"; "short_id" := "a2103ca8" ]} in
  let s2 : gmap string string :=
    {[ "time" := "2023-01-04T00:16:13"; "username" := "u2";
       "hostname" := "h2"; "short_id" := "b2103ca8" ]} in
  let env := fixed_env (VRecords [s1; s2]) (VBool true) (VBool true) in
  exists entries,
    @_get_gui_data env ∅ = Ok (VBool true, entries)
    /\ length entries = 2
    /\ Forall2 (fun s e => @snapshot_entry env s = Ok e) [s2; s1] entries.
Proof.
  intros s1 s2 env.
  apply (proj2 (@C2_snapshot_list_newest_first env ∅ [s1; s2]
                  eq_refl ltac:(discriminate))).
  repeat constructor; try (eexists; split; [reflexivity | eexists; reflexivity]);
    eexists; reflexivity.
Defined.

(** C3 on a configured repository whose binary is not found. *)
Lemma C3_no_binary_no_task_witness :
  let env := fixed_env VNone VNone (VBool false) in
  let config : gmap string (gmap string value) :=
    {[ "repo" := {[ "repository" := VStr "/backups" ]} ]} in
  snd (@get_gui_data env 3 config) = Ok (VNone, None)
  /\ submitted (fst (@get_gui_data env 3 config)) = []
  /\ (fst (@get_gui_data env 3 config)
        = [EPopup "main_gui.repository_not_configured"]
      \/ fst (@get_gui_data env 3 config)
        = [ERunner Acheck_binary; EPopup "config_gui.no_binary"])
  /\ (@repository_guard env config = ([], Ok None) ->
      fst (@get_gui_data env 3 config)
        = [ERunner Acheck_binary; EPopup "config_gui.no_binary"]).
Proof.
  intros env config.
  apply (@C3_no_binary_no_task env 3 config). reflexivity.
Defined.

(** C4, as stated, fails: with an empty repository entry and a password,
    the guard lets the call through and the task is submitted. *)
Lemma C4_counterexample :
  let env := fixed_env VNone (VBool true) (VBool true) in
  let config : gmap string (gmap string value) :=
    {[ "repo" := {[ "repository" := VStr ""; "password" := VStr "secret" ]} ]} in
  lookup_entry config "repository" = Some (VStr "")
  /\ truthy (VStr "") = false
  /\ @get_gui_data env 0 config
     = ([ERunner Acheck_binary; ESubmit "_get_gui_data"; EPopupAnimated None],
        Ok (VBool true, Some []))
  /\ submitted (fst (@get_gui_data env 0 config)) = ["_get_gui_data"].
Proof. vm_compute. repeat split. Qed.

(** C4 (amended) on an empty repository entry without a password. *)
Lemma C4_not_configured_no_task_witness :
  let env := fixed_env VNone (VBool true) (VBool true) in
  let config : gmap string (gmap string value) :=
    {[ "repo" := {[ "repository" := VStr ""; "password" := VNone ]} ]} in
  @get_gui_data env 2 config
    = ([EPopup "main_gui.repository_not_configured"], Ok (VNone, None))
  /\ submitted (fst (@get_gui_data env 2 config)) = [].
Proof.
  intros env config.
  apply (@C4_not_configured_no_task env 2 config).
  right. split; reflexivity.
Defined.

(** ** [_ls_window] and missing fields *)

Section LsProperties.
Context `{E : Externals}.

(** [_ls_window] tolerates a header record without some of its fields:
    whatever is missing, it builds its text, as long as a time that is
    present is a date. *)
Lemma ls_header_never_raises (snapshot_id : gmap string string) :
  (forall t, snapshot_id !! "time" = Some t -> is_Some (dateutil_parse t)) ->
  exists content, ls_header snapshot_id = Ok content.
Proof.
  intros Htime. unfold ls_header, getitem.
  destruct (snapshot_id !! "time") as [t|] eqn:Ht; cbn.
  - destruct (Htime t eq_refl) as [d Hd]. rewrite Hd; cbn.
    destruct (snapshot_id !! "short_id"), (snapshot_id !! "username"),
      (snapshot_id !! "hostname"); cbn; eexists; reflexivity.
  - destruct (snapshot_id !! "short_id"), (snapshot_id !! "username"),
      (snapshot_id !! "hostname"); cbn; eexists; reflexivity.
Qed.

Lemma ls_header_placeholders :
  ls_header ∅
  = Ok (" " +:+ _t "main_gui.backup_content_from" +:+ " [inconnu] "
          +:+ _t "main_gui.run_as" +:+ " [inconnu]@[inconnu] "
          +:+ _t "main_gui.identified_by" +:+ " [inconnu]").
Proof. reflexivity. Qed.

End LsProperties.

(** C6. A snapshot record without its [time] field, as the engine may
    emit it: [_ls_window] puts the placeholder in its text, but
    [_get_gui_data], which reads the same fields without a handler,
    raises [KeyError]; likewise for a record without [username]. *)
Theorem C6_get_gui_data_raises_on_missing_field :
  let no_time : gmap string string :=
    {[ "short_id" := "a2103ca8"; "username" := "root"; "hostname" := "host" ]} in
  let no_user : gmap string string :=
    {[ "time" := "2023-01-03T00:16:13"; "short_id" := "a2103ca8";
       "hostname" := "host" ]} in
  @ls_header (fixed_env VNone VNone VNone) no_time
    = Ok " main_gui.backup_content_from [inconnu] main_gui.run_as root@host main_gui.identified_by a2103ca8"
  /\ @_get_gui_data (fixed_env (VRecords [no_time]) (VBool true) (VBool true)) ∅
    = Raise (KeyError "time")
  /\ @_get_gui_data (fixed_env (VRecords [no_user]) (VBool true) (VBool true)) ∅
    = Raise (KeyError "username").
Proof. vm_compute. repeat split. Qed.

(** ** [main_gui]: the backup destination *)

Lemma split_before_colon (s : string) :
  exists t, Str.split ":" s = before_colon s :: t.
Proof.
  induction s as [|c s [t IH]]; cbn.
  - eexists; reflexivity.
  - destruct (Ascii.eqb c ":"); [eexists; reflexivity|].
    rewrite IH. eexists; reflexivity.
Qed.


Section DestinationProperties.
Context `{E : Externals}.



End DestinationProperties.


(** ** [ls_window]: reading the snapshot id back from an entry *)

Module ReFacts.
Import Re.

(** [String.append] does not unfold under [simpl]: its two equations. *)
Lemma append_nil (s : string) : EmptyString +:+ s = s.
Proof. reflexivity. Qed.

Lemma append_cons (c : ascii) (a b : string) :
  String c a +:+ b = String c (a +:+ b).
Proof. reflexivity. Qed.

Lemma append_assoc (a b c : string) : (a +:+ b) +:+ c = a +:+ b +:+ c.
Proof.
  induction a as [|x a IH]; [reflexivity|].
  rewrite !append_cons. now rewrite IH.
Qed.

Lemma append_nil_r (s : string) : s +:+ EmptyString = s.
Proof.
  induction s as [|x s IH]; [reflexivity|].
  rewrite append_cons. now rewrite IH.
Qed.

Lemma length_append (a b : string) :
  String.length (a +:+ b) = (String.length a + String.length b)%nat.
Proof.
  induction a as [|x a IH]; [reflexivity|].
  rewrite append_cons. cbn [String.length]. now rewrite IH.
Qed.

Lemma substring_prefix (w r : string) :
  String.substring 0 (String.length (w +:+ r) - String.length r) (w +:+ r) = w.
Proof.
  rewrite length_append.
  replace (String.length w + String.length r - String.length r)%nat
    with (String.length w) by lia.
  induction w as [|x w IH].
  - rewrite append_nil. destruct r; reflexivity.
  - rewrite append_cons. cbn [String.length String.substring]. now rewrite IH.
Qed.

Lemma mem_append (c : ascii) (a b : string) :
  Str.mem c (a +:+ b) = Str.mem c a || Str.mem c b.
Proof.
  induction a as [|x a IH]; [reflexivity|].
  rewrite append_cons. cbn [Str.mem]. rewrite IH. apply orb_assoc.
Qed.

(** The two equations of the greedy [.*]. *)
Lemma run_star_nil (p : list item) (st : option string) (g : list string) :
  run (DotStar :: p) EmptyString st g = run p EmptyString st g.
Proof. reflexivity. Qed.

Lemma run_star_cons (p : list item) (d : ascii) (s : string)
    (st : option string) (g : list string) :
  run (DotStar :: p) (String d s) st g
  = if Ascii.eqb d Str.newline then run p (String d s) st g
    else match run (DotStar :: p) s st g with
         | Some r => Some r
         | None => run p (String d s) st g
         end.
Proof. reflexivity. Qed.

(** No opening bracket, no match of a pattern that asks for one. *)
Lemma star_bracket_fails (u : string) (p : list item) (st : option string)
    (g : list string) :
  Str.mem "[" u = false ->
  run (DotStar :: Lit "[" :: p) u st g = None.
Proof.
  induction u as [|d u IH]; intros Hm.
  - reflexivity.
  - cbn [Str.mem] in Hm. apply orb_false_iff in Hm as [Hd Hu].
    rewrite run_star_cons, (IH Hu).
    assert (Hlit : run (Lit "[" :: p) (String d u) st g = None).
    { cbn [run]. now rewrite Hd. }
    rewrite Hlit. now destruct (Ascii.eqb d Str.newline).
Qed.

(** The group takes everything up to the closing bracket that ends the
    text. *)
Lemma group_capture (x w : string) (g : list string) :
  Str.mem Str.newline x = false ->
  run [DotStar; Close; Lit "]"; DotStar] (x +:+ "]")
    (Some (w +:+ x +:+ "]")) g
  = Some (g ++ [w +:+ x]).
Proof.
  revert w. induction x as [|c x IH]; intros w Hm.
  - change (EmptyString +:+ "]") with "]".
    rewrite run_star_cons. change (Ascii.eqb "]" Str.newline) with false.
    rewrite run_star_nil. cbn [run].
    rewrite (substring_prefix w "]"), append_nil_r. reflexivity.
  - cbn [Str.mem] in Hm. apply orb_false_iff in Hm as [Hc Hx].
    change (String c x +:+ "]") with (String c (x +:+ "]")).
    rewrite run_star_cons, Hc.
    specialize (IH (w +:+ String c EmptyString) Hx).
    rewrite !append_assoc, !append_cons, append_nil in IH.
    rewrite IH. reflexivity.
Qed.

(** The pattern finds the id at the end of a one-line entry. *)
Lemma id_pattern_capture (pre sid : string) :
  Str.mem Str.newline pre = false ->
  Str.mem Str.newline sid = false ->
  Str.mem "[" sid = false ->
  rmatch id_pattern (pre +:+ "[ID " +:+ sid +:+ "]") = Some [sid].
Proof.
  intros Hpre Hnl Hbr. unfold rmatch, id_pattern.
  induction pre as [|c pre IH].
  - change (EmptyString +:+ "[ID " +:+ sid +:+ "]")
      with (String "[" ("ID " +:+ sid +:+ "]")).
    rewrite run_star_cons. change (Ascii.eqb "[" Str.newline) with false.
    rewrite star_bracket_fails.
    + cbn [run String.append Ascii.eqb Bool.eqb].
      apply (group_capture sid EmptyString [] Hnl).
    + rewrite mem_append, mem_append, Hbr. reflexivity.
  - cbn [Str.mem] in Hpre. apply orb_false_iff in Hpre as [Hc Hp].
    change (String c pre +:+ "[ID " +:+ sid +:+ "]")
      with (String c (pre +:+ "[ID " +:+ sid +:+ "]")).
    rewrite run_star_cons, Hc, (IH Hp). reflexivity.
Qed.

End ReFacts.

Section RoundTrip.
Context `{E : Externals}.

(** C10 (amended). For a snapshot record whose [short_id] contains no
    bracket, and whose listbox entry, as [_get_gui_data] formats it,
    contains no newline, the pattern of [ls_window] applied to the
    entry gives back exactly the [short_id]. *)
Theorem C10_entry_id_round_trip
    (snapshot : gmap string string) (sid entry : string) :
  snapshot !! "short_id" = Some sid ->
  Str.mem "[" sid = false ->
  Str.mem "]" sid = false ->
  snapshot_entry snapshot = Ok entry ->
  Str.mem Str.newline entry = false ->
  ls_window_snapshot_id entry = Ok sid.
Proof.
  intros Hsid Hopen _ Hentry Hnl.
  unfold snapshot_entry, getitem in Hentry. rewrite Hsid in Hentry.
  destruct (snapshot !! "time") as [t|]; [|discriminate]. cbn in Hentry.
  destruct (dateutil_parse t) as [d|]; [|discriminate]. cbn in Hentry.
  destruct (snapshot !! "username") as [u|]; [|discriminate]. cbn in Hentry.
  destruct (snapshot !! "hostname") as [h|]; [|discriminate]. cbn in Hentry.
  injection Hentry as <-.
  unfold format_entry in *.
  set (pre := _t "main_gui.backup_from" +:+ " " +:+ strftime d +:+ " "
                +:+ _t "main_gui.run_as" +:+ " " +:+ u +:+ "@" +:+ h +:+ " ").
  assert (Heq : _t "main_gui.backup_from" +:+ " " +:+ strftime d +:+ " "
                  +:+ _t "main_gui.run_as" +:+ " " +:+ u +:+ "@" +:+ h
                  +:+ " [ID " +:+ sid +:+ "]"
                = pre +:+ "[ID " +:+ sid +:+ "]").
  { unfold pre. rewrite !ReFacts.append_assoc. reflexivity. }
  rewrite Heq in *.
  rewrite !ReFacts.mem_append in Hnl.
  apply orb_false_iff in Hnl as [Hpre Hnl].
  apply orb_false_iff in Hnl as [_ Hnl].
  apply orb_false_iff in Hnl as [Hs _].
  unfold ls_window_snapshot_id.
  rewrite (ReFacts.id_pattern_capture pre sid Hpre Hs Hopen). reflexivity.
Qed.

End RoundTrip.

(** C10, as stated, fails: a [short_id] without brackets but with a
    newline in it is not found again, since [.] stops at the newline and
    [re.match] then has no match; the same happens when the newline is
    in the text before the id. *)
Lemma C10_counterexample :
  let sid := "a2" +:+ String Str.newline "ca8" in
  let snapshot : gmap string string :=
    {[ "time" := "2023-01-03T00:16:13"; "username" := "root";
       "hostname" := "host"; "short_id" := sid ]} in
  let env := fixed_env VNone VNone VNone in
  Str.mem "[" sid = false
  /\ Str.mem "]" sid = false
  /\ @snapshot_entry env snapshot
     = Ok ("main_gui.backup_from 2023-01-03T00:16:13 main_gui.run_as root@host [ID a2"
             +:+ String Str.newline "ca8]")
  /\ ls_window_snapshot_id
       ("main_gui.backup_from 2023-01-03T00:16:13 main_gui.run_as root@host [ID a2"
          +:+ String Str.newline "ca8]")
     = Raise AttributeError
  /\ ls_window_snapshot_id
       ("main_gui.backup_from 2023-01-03T00:16:13 main_gui.run_as ro"
          +:+ String Str.newline "ot@host [ID a2103ca8]")
     = Raise AttributeError.
Proof. vm_compute. repeat split. Qed.

(** C10 (amended) on a record as the engine emits it. *)
Lemma C10_entry_id_round_trip_witness :
  ls_window_snapshot_id
    "main_gui.backup_from 2023-01-03T00:16:13 main_gui.run_as root@host [ID a2103ca8]"
  = Ok "a2103ca8".
Proof.
  apply (@C10_entry_id_round_trip (fixed_env VNone VNone VNone)
           {[ "time" := "2023-01-03T00:16:13"; "username" := "root";
              "hostname" := "host"; "short_id" := "a2103ca8" ]}
           "a2103ca8");
    reflexivity.
Defined.

(** ** [_make_treedata_from_json] *)

Section TreeProperties.
Context `{E : Externals}.

Lemma has_key_true (td : TreeData.t) (k : string) :
  TreeData.has_key td k = true <-> is_Some (TreeData.tree_dict td !! k).
Proof. unfold TreeData.has_key. apply bool_decide_eq_true. Qed.

(** [Insert] succeeds when the parent has a node, and then only adds
    the new key. *)
Lemma Insert_ok (td : TreeData.t) (parent key text : string)
    (values : list string) (icon : string) :
  TreeData.has_key td parent = true ->
  exists td',
    TreeData.Insert td parent key text values icon = Ok td'
    /\ TreeData.tree_dict td'
       = <[key := length (TreeData.nodes td)]> (TreeData.tree_dict td).
Proof.
  intros Hp. apply has_key_true in Hp.
  unfold TreeData.Insert, getitem.
  assert (Hin : is_Some (<[key := length (TreeData.nodes td)]>
                           (TreeData.tree_dict td) !! parent)).
  { apply lookup_insert_is_Some'. right. exact Hp. }
  destruct Hin as [pid Hpid]. rewrite Hpid; cbn.
  eexists. split; reflexivity.
Qed.

Lemma Insert_keeps (td td' : TreeData.t) (key k : string) :
  TreeData.tree_dict td'
    = <[key := length (TreeData.nodes td)]> (TreeData.tree_dict td) ->
  (TreeData.has_key td k = true -> TreeData.has_key td' k = true)
  /\ TreeData.has_key td' key = true.
Proof.
  intros Hd. rewrite !has_key_true, Hd. split.
  - intros Hk. apply lookup_insert_is_Some'. right. exact Hk.
  - apply lookup_insert_is_Some'. left. reflexivity.
Qed.

Lemma tree_step_ok (td : TreeData.t) (e : entry) :
  fields_ok e ->
  (inserted e = true -> TreeData.has_key td (dirname (tree_key e)) = true) ->
  exists td',
    tree_step td e = Ok td'
    /\ (forall k, TreeData.has_key td k = true -> TreeData.has_key td' k = true)
    /\ (inserted e = true -> TreeData.has_key td' (tree_key e) = true).
Proof.
  intros [[d Hd] Hsize] Hparent. unfold tree_step, inserted in *.
  rewrite Hd; cbn.
  destruct (String.eqb (e_type e) "dir") eqn:Hdir; cbn in *.
  - destruct (TreeData.has_key td (tree_key e)) eqn:Hhas; cbn.
    + apply String.eqb_eq in Hdir. rewrite Hdir. cbn.
      exists td. repeat split; auto.
    + destruct (Insert_ok td (dirname (tree_key e)) (tree_key e) (e_name e)
                  [""; strftime d] folder_icon (Hparent eq_refl))
        as [td' [Hins Hdict]].
      exists td'. split; [exact Hins|].
      split;
        [ intros k Hk; apply (Insert_keeps td td' (tree_key e) k Hdict), Hk
        | intros _; apply (Insert_keeps td td' (tree_key e) "" Hdict) ].
  - destruct (String.eqb (e_type e) "file") eqn:Hfile; cbn.
    + apply String.eqb_eq in Hfile. destruct (Hsize Hfile) as [n Hn].
      rewrite Hn; cbn.
      destruct (Insert_ok td (dirname (tree_key e)) (tree_key e) (e_name e)
                  [human n; strftime d] file_icon (Hparent eq_refl))
        as [td' [Hins Hdict]].
      exists td'. split; [exact Hins|].
      split;
        [ intros k Hk; apply (Insert_keeps td td' (tree_key e) k Hdict), Hk
        | intros _; apply (Insert_keeps td td' (tree_key e) "" Hdict) ].
    + exists td. repeat split; auto. discriminate.
Qed.

(** The loop, from any tree: it is enough that the parent of every
    entry is in the tree already or is an earlier entry. *)
Lemma tree_loop_ok (l : list entry) :
  forall td,
    Forall fields_ok l ->
    (forall i e,
        l !! i = Some e -> inserted e = true ->
        TreeData.has_key td (dirname (tree_key e)) = true
        \/ exists j e',
             (j < i)%nat /\ l !! j = Some e' /\ inserted e' = true
             /\ tree_key e' = dirname (tree_key e)) ->
    exists td',
      tree_loop td l = Ok td'
      /\ (forall k, TreeData.has_key td k = true -> TreeData.has_key td' k = true)
      /\ (forall e, In e l -> inserted e = true ->
                    TreeData.has_key td' (tree_key e) = true).
Proof.
  induction l as [|e l IH]; intros td Hall Hpar.
  - exists td. cbn. repeat split; auto.
  - inversion Hall as [|? ? He Hl]; subst.
    assert (Hpe : inserted e = true ->
                  TreeData.has_key td (dirname (tree_key e)) = true).
    { intros Hi. destruct (Hpar 0%nat e eq_refl Hi) as [H|[j [e' [Hj _]]]];
        [exact H | lia]. }
    destruct (tree_step_ok td e He Hpe) as [td1 [Hstep [Hmono Hkey]]].
    destruct (IH td1 Hl) as [td' [Hloop [Hmono' Hkeys]]].
    { intros i e2 Hi Hins.
      destruct (Hpar (S i) e2 Hi Hins) as [H|[j [e' [Hj [Hlook [Hins' Hk]]]]]].
      - left. apply Hmono, H.
      - destruct j as [|j].
        + cbn in Hlook. injection Hlook as <-. left. rewrite <- Hk.
          apply Hkey, Hins'.
        + right. exists j, e'. repeat split; auto. lia. }
    exists td'. cbn. rewrite Hstep; cbn. split; [exact Hloop|]. split.
    + intros k Hk. apply Hmono', Hmono, Hk.
    + intros e2 [<-|Hin] Hins; [apply Hmono', Hkey, Hins | apply Hkeys; auto].
Qed.

(** C7 (amended). When every file or directory entry of an [ls] result
    comes after its parent directory (its parent, the [os.path.dirname]
    of its key on the system at hand, is the root or the key of an
    earlier file or directory entry), [_make_treedata_from_json] does
    not raise and the tree has a node for every such entry and for its
    parent. *)
Theorem C7_tree_nodes_when_parents_first (ls_result : list entry) :
  Forall fields_ok ls_result ->
  parents_first ls_result ->
  exists treedata,
    _make_treedata_from_json ls_result = Ok treedata
    /\ forall e, In e ls_result -> inserted e = true ->
         TreeData.has_key treedata (tree_key e) = true
         /\ TreeData.has_key treedata (dirname (tree_key e)) = true.
Proof.
  intros Hall Hpar. unfold _make_treedata_from_json.
  destruct (tree_loop_ok ls_result TreeData.init Hall)
    as [td [Hloop [Hmono Hkeys]]].
  { intros i e Hi Hins.
    destruct (Hpar i e Hi Hins) as [H|H]; [left | right; exact H].
    rewrite H. reflexivity. }
  exists td. split; [exact Hloop|].
  intros e Hin Hins. split; [apply Hkeys; assumption|].
  apply list_elem_of_In, list_elem_of_lookup in Hin as [i Hi].
  destruct (Hpar i e Hi Hins) as [H|[j [e' [_ [Hj [Hins' Hk]]]]]].
  - rewrite H. apply Hmono. reflexivity.
  - rewrite <- Hk. apply Hkeys; [|exact Hins'].
    apply list_elem_of_In, list_elem_of_lookup. exists j. exact Hj.
Qed.

End TreeProperties.

(** C7, as stated, fails: a child whose parent directory has no entry
    before it makes [TreeData.Insert] raise [KeyError], be the parent
    absent, later in the sequence, or written with a trailing slash. *)
Lemma C7_counterexample :
  let env := fixed_env VNone VNone VNone in
  let mtime := "2022-09-05T14:18:52+02:00" in
  let file := {| e_name := "b.txt"; e_type := "file"; e_path := "a/b.txt";
                 e_size := Some 2103%Z; e_mtime := mtime |} in
  let dir := {| e_name := "a"; e_type := "dir"; e_path := "a";
                e_size := None; e_mtime := mtime |} in
  let dir_slash := {| e_name := "a"; e_type := "dir"; e_path := "a/";
                      e_size := None; e_mtime := mtime |} in
  @_make_treedata_from_json env [file] = Raise (KeyError "a")
  /\ @_make_treedata_from_json env [file; dir] = Raise (KeyError "a")
  /\ @_make_treedata_from_json env [file; dir_slash] = Raise (KeyError "a")
  /\ @_make_treedata_from_json env [dir_slash; file] = Raise (KeyError "a").
Proof. vm_compute. repeat split. Qed.

(** C7 (amended) on a directory followed by a file in it. *)
Lemma C7_tree_nodes_when_parents_first_witness :
  let env := fixed_env VNone VNone VNone in
  let mtime := "2022-09-05T14:18:52+02:00" in
  let file := {| e_name := "b.txt"; e_type := "file"; e_path := "/a/b.txt";
                 e_size := Some 2103%Z; e_mtime := mtime |} in
  let dir := {| e_name := "a"; e_type := "dir"; e_path := "/a";
                e_size := None; e_mtime := mtime |} in
  exists treedata,
    @_make_treedata_from_json env [dir; file] = Ok treedata
    /\ forall e, In e [dir; file] -> @inserted e = true ->
         TreeData.has_key treedata (@tree_key env e) = true
         /\ TreeData.has_key treedata (@dirname env (@tree_key env e)) = true.
Proof.
  intros env mtime file dir.
  apply (@C7_tree_nodes_when_parents_first env [dir; file]).
  - repeat constructor; try (eexists; reflexivity); discriminate.
  - intros i e Hi _.
    destruct i as [|[|i]]; cbn in Hi; try discriminate;
      injection Hi as <-.
    + left. reflexivity.
    + right. exists 0%nat, dir. repeat split. lia.
Defined.

(** ** [main_gui]: the lines of a running backup *)

Module ProgressFacts.
Import Progress.

(** What has been taken from the queue, what is in it and what is
    still to be written make up the lines of the task, in order; the
    lines shown are the non-empty ones among those taken. *)
Lemma step_keeps_order (lines : list string) (a : actor) (s : state) :
  (exists taken,
      taken ++ queue s ++ pending s = lines
      /\ shown s = List.filter nonempty taken) ->
  exists taken,
    taken ++ queue (step a s) ++ pending (step a s) = lines
    /\ shown (step a s) = List.filter nonempty taken.
Proof.
  intros [taken [Hl Hs]]. destruct a; cbn [step].
  - unfold worker_step. destruct (done s); [exists taken; auto|].
    destruct (pending s) as [|line rest] eqn:Hp; cbn.
    + exists taken. auto.
    + exists taken. split; [|exact Hs].
      rewrite <- Hl, <- !app_assoc. reflexivity.
  - unfold coordinator_step. destruct (at_pc s).
    + destruct (negb (done s) && negb (cancelled s)); exists taken; auto.
    + unfold get_step. destruct (queue s) as [|line rest] eqn:Hq.
      * exists taken. cbn. rewrite Hq. auto.
      * exists (taken ++ [line]). cbn. split.
        -- rewrite <- Hl, <- !app_assoc. reflexivity.
        -- rewrite List.filter_app, Hs. cbn. unfold nonempty.
           destruct (negb (String.eqb line "")); [reflexivity|].
           symmetry. apply app_nil_r.
    + exists taken. auto.
Qed.

Lemma run_keeps_order (lines : list string) (schedule : list actor) :
  forall s,
    (exists taken,
        taken ++ queue s ++ pending s = lines
        /\ shown s = List.filter nonempty taken) ->
    exists taken,
      taken ++ queue (run schedule s) ++ pending (run schedule s) = lines
      /\ shown (run schedule s) = List.filter nonempty taken.
Proof.
  induction schedule as [|a rest IH]; intros s H; cbn [run];
    [exact H | apply IH, step_keeps_order, H].
Qed.

(** Past the loop nothing is taken from the queue any more. *)
Lemma step_after_exit (a : actor) (s : state) :
  at_pc s = Exited ->
  at_pc (step a s) = Exited
  /\ shown (step a s) = shown s
  /\ queue (step a s) ++ pending (step a s) = queue s ++ pending s.
Proof.
  intros Hpc. destruct a; cbn [step].
  - unfold worker_step. destruct (done s); [auto|].
    destruct (pending s) as [|line rest]; cbn; repeat split; auto.
    rewrite <- app_assoc. reflexivity.
  - unfold coordinator_step. rewrite Hpc. auto.
Qed.

Lemma run_after_exit (schedule : list actor) :
  forall s,
    at_pc s = Exited ->
    shown (run schedule s) = shown s
    /\ queue (run schedule s) ++ pending (run schedule s)
       = queue s ++ pending s.
Proof.
  induction schedule as [|a rest IH]; intros s Hpc; cbn [run]; [auto|].
  destruct (step_after_exit a s Hpc) as [Hpc' [Hs Hq]].
  destruct (IH (step a s) Hpc') as [Hs' Hq'].
  rewrite Hs', Hq'. auto.
Qed.

End ProgressFacts.

(** C5 (amended). Whatever the interleaving of the backup task and the
    loop of [main_gui], the lines shown are, in order and each once, the
    non-empty lines among the first [k] lines the task writes, for some
    [k]; the other lines are still in the queue or not yet written. The
    loop takes nothing more once it has seen the task done: from then
    on the lines shown and the lines left stay as they are. *)
Theorem C5_shown_lines_are_a_prefix
    (lines : list string) (schedule : list Progress.actor) :
  let s := Progress.run schedule (Progress.start lines) in
  (exists k,
      (k <= length lines)%nat
      /\ Progress.shown s = List.filter Progress.nonempty (take k lines)
      /\ Progress.queue s ++ Progress.pending s = drop k lines)
  /\ (Progress.at_pc s = Progress.Exited ->
      forall more,
        Progress.shown (Progress.run more s) = Progress.shown s
        /\ Progress.queue (Progress.run more s)
             ++ Progress.pending (Progress.run more s)
           = Progress.queue s ++ Progress.pending s).
Proof.
  intros s. split.
  - destruct (ProgressFacts.run_keeps_order lines schedule (Progress.start lines))
      as [taken [Hl Hs]].
    { exists []. split; reflexivity. }
    fold s in Hl, Hs. exists (length taken). rewrite <- Hl. split; [|split].
    + rewrite length_app. lia.
    + rewrite take_app_length. exact Hs.
    + rewrite drop_app_length. reflexivity.
  - intros Hpc more. apply ProgressFacts.run_after_exit, Hpc.
Qed.

(** C5, as stated, fails: the loop shows the first line; while it
    repaints, the task writes its second line and completes; the loop
    then finds the task done and ends, and the second line stays in the
    queue, which nothing reads afterwards. *)
Lemma C5_counterexample :
  let s := Progress.run
             [Progress.Coordinator; Progress.Worker; Progress.Coordinator;
              Progress.Worker; Progress.Worker; Progress.Coordinator]
             (Progress.start ["scanning"; "uploaded 1 file"]) in
  Progress.finished s = true
  /\ Progress.shown s = ["scanning"]
  /\ Progress.queue s = ["uploaded 1 file"]
  /\ Progress.shown s <> ["scanning"; "uploaded 1 file"].
Proof. vm_compute. repeat split. discriminate. Qed.

(** C5 (amended) on that run, continued by more turns of each. *)
Lemma C5_shown_lines_are_a_prefix_witness :
  let s := Progress.run
             [Progress.Coordinator; Progress.Worker; Progress.Coordinator;
              Progress.Worker; Progress.Worker; Progress.Coordinator]
             (Progress.start ["scanning"; "uploaded 1 file"]) in
  let more := [Progress.Coordinator; Progress.Worker; Progress.Coordinator] in
  Progress.shown (Progress.run more s) = Progress.shown s
  /\ Progress.queue (Progress.run more s) ++ Progress.pending (Progress.run more s)
     = Progress.queue s ++ Progress.pending s.
Proof.
  intros s more.
  apply (proj2 (C5_shown_lines_are_a_prefix ["scanning"; "uploaded 1 file"]
                  [Progress.Coordinator; Progress.Worker; Progress.Coordinator;
                   Progress.Worker; Progress.Worker; Progress.Coordinator])).
  reflexivity.
Defined.

(** ** The task handle *)

(** C8. [result()] on a task handle is idempotent: a second call
    returns what the first returned and leaves the handle and what the
    operation acts on as they were, so the operation is not run again;
    for a handle that was just submitted the first call runs the
    operation once and the slot holds its outcome. *)
Theorem C8_result_idempotent {W R : Type} (h : @Task.handle W R) (w : W) :
  let '(r1, (h1, w1)) := Task.result h w in
  Task.result h1 w1 = (r1, (h1, w1))
  /\ Task.runs (fst (snd (Task.result h1 w1))) = Task.runs h1
  /\ forall op,
       h = Task.submit op ->
       r1 = Some (fst (op w)) /\ Task.runs h1 = 1%nat /\ w1 = snd (op w).
Proof.
  unfold Task.result, Task.complete.
  destruct (Task.is_done h) eqn:Hd.
  - rewrite Hd. repeat split; subst h; discriminate.
  - destruct (Task.operation h w) as [r w'] eqn:Hop. cbn.
    split; [reflexivity|]. split; [reflexivity|].
    intros op ->. cbn in Hop. rewrite Hop. cbn. auto.
Qed.

(** C8 on an operation that counts its runs in what it acts on. *)
Lemma C8_result_idempotent_witness :
  let op := fun n : nat => (Ok (2 * n)%nat, S n) in
  let h1 := fst (snd (Task.result (Task.submit op) 5%nat)) in
  Task.result (Task.submit op) 5%nat = (Some (Ok 10%nat), (h1, 6%nat))
  /\ Task.result h1 6%nat = (Some (Ok 10%nat), (h1, 6%nat))
  /\ Task.runs h1 = 1%nat.
Proof.
  intros op h1.
  pose proof (C8_result_idempotent (Task.submit op) 5%nat) as H.
  cbn in H. destruct H as [H1 [_ H3]].
  destruct (H3 op eq_refl) as [_ [Hruns _]].
  split; [reflexivity|]. split; [exact H1 | exact Hruns].
Defined.

(** * Further properties *)

(** ** [ls_window]: what the pattern finds *)

Module ReSound.
Import Re.

(** What a successful greedy run gave to the rest of the pattern. *)
Lemma star_sound (p : list item) (s : string) (st : option string)
    (g r : list string) :
  run (DotStar :: p) s st g = Some r ->
  exists a b,
    s = a +:+ b /\ Str.mem Str.newline a = false /\ run p b st g = Some r.
Proof.
  induction s as [|d s IH]; intros H.
  - exists EmptyString, EmptyString. auto.
  - rewrite ReFacts.run_star_cons in H.
    destruct (Ascii.eqb d Str.newline) eqn:Hd.
    + exists EmptyString, (String d s). auto.
    + destruct (run (DotStar :: p) s st g) as [r'|] eqn:Hs.
      * destruct (IH H) as [a [b [Hab [Ha Hb]]]].
        exists (String d a), b. rewrite ReFacts.append_cons, <- Hab.
        cbn [Str.mem]. rewrite Hd, Ha. auto.
      * exists EmptyString, (String d s). auto.
Qed.

Lemma lit_sound (c : ascii) (p : list item) (s : string)
    (st : option string) (g r : list string) :
  run (Lit c :: p) s st g = Some r ->
  exists s', s = String c s' /\ run p s' st g = Some r.
Proof.
  destruct s as [|d s]; cbn [run]; [discriminate|].
  destruct (Ascii.eqb d c) eqn:Hd; [|discriminate].
  apply Ascii.eqb_eq in Hd. subst d. intros H. exists s. auto.
Qed.

Lemma run_open (p : list item) (s : string) (st : option string)
    (g : list string) :
  run (Open :: p) s st g = run p s (Some s) g.
Proof. reflexivity. Qed.

Lemma run_close (p : list item) (s s0 : string) (g : list string) :
  run (Close :: p) s (Some s0) g
  = run p s None
      (g ++ [String.substring 0 (String.length s0 - String.length s) s0]).
Proof. reflexivity. Qed.

Lemma id_pattern_sound (s : string) (r : list string) :
  rmatch id_pattern s = Some r ->
  exists a g b,
    s = a +:+ "[ID " +:+ g +:+ "]" +:+ b
    /\ r = [g]
    /\ Str.mem Str.newline a = false
    /\ Str.mem Str.newline g = false.
Proof.
  unfold rmatch, id_pattern. intros H.
  apply star_sound in H as [a [b1 [Hs [Ha H]]]].
  apply lit_sound in H as [b2 [-> H]].
  apply lit_sound in H as [b3 [-> H]].
  apply lit_sound in H as [b4 [-> H]].
  apply lit_sound in H as [b5 [-> H]].
  rewrite run_open in H.
  apply star_sound in H as [g [b6 [-> [Hg H]]]].
  rewrite run_close, ReFacts.substring_prefix in H.
  apply lit_sound in H as [b7 [-> H]].
  apply star_sound in H as [a' [b' [_ [_ H]]]].
  cbn [run app] in H. injection H as <-.
  exists a, g, b7. repeat split; auto.
Qed.

End ReSound.

(** X1. Whatever [ls_window] reads out of an entry stands in it between
    the text bracket-I-D-space and a closing bracket, on the first line
    of the entry. *)
Theorem X1_extracted_id_is_bracketed (entry g : string) :
  ls_window_snapshot_id entry = Ok g ->
  exists a b,
    entry = a +:+ "[ID " +:+ g +:+ "]" +:+ b
    /\ Str.mem Str.newline a = false
    /\ Str.mem Str.newline g = false.
Proof.
  unfold ls_window_snapshot_id.
  destruct (Re.rmatch Re.id_pattern entry) as [r|] eqn:Hm; [|discriminate].
  destruct (ReSound.id_pattern_sound _ _ Hm) as [a [g' [b [He [-> [Ha Hg]]]]]].
  intros [= <-]. exists a, b. auto.
Qed.

(** X1 on an entry with text after the bracket. *)
Lemma X1_extracted_id_is_bracketed_witness :
  exists a b,
    "from host [ID a2103ca8] (kept)" = a +:+ "[ID " +:+ "a2103ca8" +:+ "]" +:+ b
    /\ Str.mem Str.newline a = false
    /\ Str.mem Str.newline "a2103ca8" = false.
Proof.
  apply (X1_extracted_id_is_bracketed "from host [ID a2103ca8] (kept)" "a2103ca8").
  reflexivity.
Defined.

(** X2. An entry that [ls_window] cannot read makes it raise
    [AttributeError] and nothing else; this is what happens to every
    entry without an opening bracket. *)
Theorem X2_unreadable_entry_raises_AttributeError (entry : string) :
  (forall e, ls_window_snapshot_id entry = Raise e -> e = AttributeError)
  /\ (Str.mem "[" entry = false ->
      ls_window_snapshot_id entry = Raise AttributeError).
Proof.
  unfold ls_window_snapshot_id. split.
  - destruct (Re.rmatch Re.id_pattern entry) as [r|] eqn:Hm.
    + destruct (ReSound.id_pattern_sound _ _ Hm) as [a [g [b [_ [-> _]]]]].
      discriminate.
    + intros e [= <-]. reflexivity.
  - intros Hno. unfold Re.rmatch, Re.id_pattern.
    rewrite ReFacts.star_bracket_fails; auto.
Qed.

(** X2 on an entry without brackets. *)
Lemma X2_unreadable_entry_raises_AttributeError_witness :
  ls_window_snapshot_id "no snapshot selected" = Raise AttributeError.
Proof.
  apply (proj2 (X2_unreadable_entry_raises_AttributeError "no snapshot selected")).
  reflexivity.
Defined.

(** X3. The id of an entry is read back whatever the fields before it
    hold, brackets included, and even when the id has closing brackets
    in it: it is enough that the id has no opening bracket and that no
    field has a newline. *)
Theorem X3_id_read_back_from_any_fields
    (backup_from date run_as username hostname id : string) :
  Str.mem Str.newline backup_from = false ->
  Str.mem Str.newline date = false ->
  Str.mem Str.newline run_as = false ->
  Str.mem Str.newline username = false ->
  Str.mem Str.newline hostname = false ->
  Str.mem Str.newline id = false ->
  Str.mem "[" id = false ->
  ls_window_snapshot_id
    (format_entry backup_from date run_as username hostname id) = Ok id.
Proof.
  intros H1 H2 H3 H4 H5 H6 Hopen. unfold format_entry.
  set (pre := backup_from +:+ " " +:+ date +:+ " " +:+ run_as +:+ " "
                +:+ username +:+ "@" +:+ hostname +:+ " ").
  assert (Heq : backup_from +:+ " " +:+ date +:+ " " +:+ run_as +:+ " "
                  +:+ username +:+ "@" +:+ hostname +:+ " [ID " +:+ id +:+ "]"
                = pre +:+ "[ID " +:+ id +:+ "]").
  { unfold pre. rewrite !ReFacts.append_assoc. reflexivity. }
  rewrite Heq. unfold ls_window_snapshot_id.
  rewrite (ReFacts.id_pattern_capture pre id); auto.
  unfold pre. rewrite !ReFacts.mem_append, H1, H2, H3, H4, H5. reflexivity.
Qed.

(** X3 on a host name that looks like an id and an id with a closing
    bracket. *)
Lemma X3_id_read_back_from_any_fields_witness :
  ls_window_snapshot_id
    (format_entry "Backup from" "2023-01-03 00:16:13" "run as" "root"
       "[ID host]" "a21]03")
  = Ok "a21]03".
Proof.
  apply X3_id_read_back_from_any_fields; reflexivity.
Defined.

(** ** [_ls_window]: the text of the header *)

Section LsHeaderText.
Context `{E : Externals}.

(** X4. [_ls_window] replaces each missing field of the header record
    by the placeholder, independently of the others: when the time is
    missing or is a date, its text is the format filled with the fields
    that are there and [[inconnu]] for the others. *)
Theorem X4_ls_header_fills_placeholders (snapshot_id : gmap string string) :
  (forall t, snapshot_id !! "time" = Some t -> is_Some (dateutil_parse t)) ->
  ls_header snapshot_id
  = Ok (" " +:+ _t "main_gui.backup_content_from" +:+ " "
          +:+ match snapshot_id !! "time" with
              | Some t => match dateutil_parse t with
                          | Some d => str_datetime d
                          | None => inconnu
                          end
              | None => inconnu
              end
          +:+ " " +:+ _t "main_gui.run_as" +:+ " "
          +:+ default inconnu (snapshot_id !! "username") +:+ "@"
          +:+ default inconnu (snapshot_id !! "hostname") +:+ " "
          +:+ _t "main_gui.identified_by" +:+ " "
          +:+ default inconnu (snapshot_id !! "short_id")).
Proof.
  intros Htime. unfold ls_header, getitem.
  destruct (snapshot_id !! "time") as [t|] eqn:Ht; cbn.
  - destruct (Htime t eq_refl) as [d Hd]. rewrite Hd; cbn.
    destruct (snapshot_id !! "short_id"), (snapshot_id !! "username"),
      (snapshot_id !! "hostname"); reflexivity.
  - destruct (snapshot_id !! "short_id"), (snapshot_id !! "username"),
      (snapshot_id !! "hostname"); reflexivity.
Qed.

(** X5. The placeholder only stands for a missing field: a header
    record whose time is there but is not a date makes [_ls_window]
    raise the parser's error, whatever its other fields. *)
Theorem X5_ls_header_bad_time_raises (snapshot_id : gmap string string)
    (t : string) :
  snapshot_id !! "time" = Some t ->
  dateutil_parse t = None ->
  ls_header snapshot_id = Raise ParserError.
Proof.
  intros Ht Hd. unfold ls_header, getitem. rewrite Ht; cbn. rewrite Hd.
  reflexivity.
Qed.

End LsHeaderText.

(** X4 on a record that only has its host name. *)
Lemma X4_ls_header_fills_placeholders_witness :
  @ls_header (fixed_env VNone VNone VNone) {[ "hostname" := "host" ]}
  = Ok " main_gui.backup_content_from [inconnu] main_gui.run_as [inconnu]@host main_gui.identified_by [inconnu]".
Proof.
  rewrite (@X4_ls_header_fills_placeholders (fixed_env VNone VNone VNone)
             {[ "hostname" := "host" ]}).
  - vm_compute. reflexivity.
  - intros t Ht. vm_compute in Ht. discriminate Ht.
Defined.

(** X5 on a record whose time is the empty text. *)
Lemma X5_ls_header_bad_time_raises_witness :
  @ls_header (fixed_env VNone VNone VNone)
    {[ "time" := ""; "hostname" := "host" ]}
  = Raise ParserError.
Proof.
  apply (@X5_ls_header_bad_time_raises (fixed_env VNone VNone VNone)
           {[ "time" := ""; "hostname" := "host" ]} "");
    reflexivity.
Defined.

(** ** [get_gui_data]: the call that goes through *)

Section GuiDataPath.
Context `{E : Externals}.

Lemma wait_animated_trace (msg : string) (polls : nat) :
  wait_animated msg polls
  = (replicate polls (EPopupAnimated (Some msg)) ++ [EPopupAnimated None], Ok tt).
Proof.
  induction polls as [|n IH]; [reflexivity|].
  cbn [wait_animated]. unfold gbind, emit. rewrite IH. reflexivity.
Qed.

Lemma submitted_loader (msg : string) (polls : nat) :
  submitted (replicate polls (EPopupAnimated (Some msg)) ++ [EPopupAnimated None])
  = [].
Proof. induction polls as [|n IH]; [reflexivity | exact IH]. Qed.

(** X6. With a repository entry that is set (whether or not there is a
    password entry) and a binary that is found, [get_gui_data] calls
    [check-binary], submits the worker once, shows the loader once per
    poll and closes it, in this order, and then gives what the worker
    gave: its state and list, or its exception. *)
Theorem X6_get_gui_data_submits_once
    (polls : nat) (config : gmap string (gmap string value)) (v : value) :
  lookup_entry config "repository" = Some v ->
  truthy v = true ->
  truthy (runner Acheck_binary config) = true ->
  fst (get_gui_data polls config)
    = ERunner Acheck_binary :: ESubmit "_get_gui_data"
        :: replicate polls
             (EPopupAnimated (Some (_t "main_gui.loading_data_from_repo")))
        ++ [EPopupAnimated None]
  /\ submitted (fst (get_gui_data polls config)) = ["_get_gui_data"]
  /\ snd (get_gui_data polls config)
     = match _get_gui_data config with
       | Ok (state, entries) => Ok (state, Some entries)
       | Raise e => Raise e
       end.
Proof.
  intros Hv Ht Hbin.
  assert (Hg : repository_guard config = ([], Ok None)).
  { unfold repository_guard, repo_entry, getitem. unfold lookup_entry in Hv.
    destruct (config !! "repo") as [repo|]; [|discriminate]. cbn.
    rewrite Hv; cbn. rewrite Ht. reflexivity. }
  assert (Hfst : fst (get_gui_data polls config)
            = ERunner Acheck_binary :: ESubmit "_get_gui_data"
                :: replicate polls
                     (EPopupAnimated (Some (_t "main_gui.loading_data_from_repo")))
                ++ [EPopupAnimated None]).
  { unfold get_gui_data. rewrite Hg. cbn [gbind app emit].
    rewrite Hbin. cbn [negb gbind app emit].
    rewrite wait_animated_trace. unfold lift.
    destruct (_get_gui_data config) as [[st l]|e]; cbn;
      rewrite ?app_nil_r; reflexivity. }
  split; [exact Hfst|]. split.
  - rewrite Hfst.
    change (submitted (ERunner Acheck_binary :: ESubmit "_get_gui_data"
              :: replicate polls
                   (EPopupAnimated (Some (_t "main_gui.loading_data_from_repo")))
              ++ [EPopupAnimated None]))
      with ("_get_gui_data"
              :: submitted
                   (replicate polls
                      (EPopupAnimated (Some (_t "main_gui.loading_data_from_repo")))
                    ++ [EPopupAnimated None])).
    rewrite submitted_loader. reflexivity.
  - unfold get_gui_data. rewrite Hg. cbn [gbind app emit].
    rewrite Hbin. cbn [negb gbind app emit].
    rewrite wait_animated_trace. unfold lift.
    destruct (_get_gui_data config) as [[st l]|e]; reflexivity.
Qed.

(** X7. When the repository entry is missing or the binary is not
    found, what [get_gui_data] returns makes [_gui_update_state] show
    "not connected" and leave the list of snapshots as it was. *)
Theorem X7_failed_load_shows_not_connected
    (w : window) (polls : nat) (config : gmap string (gmap string value)) :
  lookup_entry config "repository" = None
  \/ truthy (runner Acheck_binary config) = false ->
  exists state entries,
    snd (get_gui_data polls config) = Ok (state, entries)
    /\ submitted (fst (get_gui_data polls config)) = []
    /\ state_button (_gui_update_state w state entries)
       = (_t "generic.not_connected", ("white", "darkgrey"))
    /\ snapshot_list (_gui_update_state w state entries) = snapshot_list w.
Proof.
  intros H. exists VNone, None.
  assert (Hr : snd (get_gui_data polls config) = Ok (VNone, None)
               /\ submitted (fst (get_gui_data polls config)) = []).
  { unfold get_gui_data.
    destruct (repository_guard_cases config) as [Hg|Hg].
    - rewrite Hg. cbn. auto.
    - destruct H as [Hnone|Hbin].
      + exfalso. revert Hg. unfold repository_guard, repo_entry, getitem.
        unfold lookup_entry in Hnone.
        destruct (config !! "repo") as [repo|]; cbn; [|discriminate].
        rewrite Hnone. cbn. discriminate.
      + rewrite Hg. cbn [gbind app emit]. rewrite Hbin. cbn. auto. }
  destruct Hr as [Hsnd Hsub]. repeat split; assumption.
Qed.

End GuiDataPath.

(** X6 on a repository without a password entry. *)
Lemma X6_get_gui_data_submits_once_witness :
  let env := fixed_env VNone (VBool false) (VBool true) in
  let config : gmap string (gmap string value) :=
    {[ "repo" := {[ "repository" := VStr "/srv/backups" ]} ]} in
  @get_gui_data env 2 config
  = ([ERunner Acheck_binary; ESubmit "_get_gui_data";
      EPopupAnimated (Some "main_gui.loading_data_from_repo");
      EPopupAnimated (Some "main_gui.loading_data_from_repo");
      EPopupAnimated None],
     Ok (VBool false, Some [])).
Proof.
  intros env config.
  destruct (@X6_get_gui_data_submits_once env 2 config (VStr "/srv/backups")
              eq_refl eq_refl eq_refl) as [Hfst [_ Hsnd]].
  rewrite (surjective_pairing (@get_gui_data env 2 config)), Hfst, Hsnd.
  reflexivity.
Defined.

(** X7 on a configuration without a repository entry. *)
Lemma X7_failed_load_shows_not_connected_witness :
  let env := fixed_env VNone VNone (VBool true) in
  let w := {| state_button := ("generic.up_to_date", ("white", "springgreen4"));
              snapshot_list := ["an entry"] |} in
  exists state entries,
    snd (@get_gui_data env 0 ∅) = Ok (state, entries)
    /\ submitted (fst (@get_gui_data env 0 ∅)) = []
    /\ state_button (@_gui_update_state env w state entries)
       = ("generic.not_connected", ("white", "darkgrey"))
    /\ snapshot_list (@_gui_update_state env w state entries) = ["an entry"].
Proof.
  intros env w.
  apply (@X7_failed_load_shows_not_connected env w 0 ∅).
  left. reflexivity.
Defined.

(** ** [_make_treedata_from_json]: the store it builds *)

Section TreeStore.
Context `{E : Externals}.

Lemma Insert_inv (td td' : TreeData.t) (par k text : string)
    (values : list string) (icon : string) :
  TreeData.Insert td par k text values icon = Ok td' ->
  exists pid,
    <[k := length (TreeData.nodes td)]> (TreeData.tree_dict td) !! par = Some pid
    /\ TreeData.tree_dict td'
       = <[k := length (TreeData.nodes td)]> (TreeData.tree_dict td)
    /\ TreeData.nodes td'
       = alter (TreeData._Add (length (TreeData.nodes td))) pid
           (TreeData.nodes td
              ++ [ {| TreeData.parent := par; TreeData.key := k;
                      TreeData.text := text; TreeData.values := values;
                      TreeData.icon := icon; TreeData.children := [] |} ]).
Proof.
  unfold TreeData.Insert, getitem.
  destruct (<[k := length (TreeData.nodes td)]> (TreeData.tree_dict td) !! par)
    as [pid|]; cbn; [|discriminate].
  intros [= <-]. exists pid. auto.
Qed.

Lemma init_wf : tree_wf TreeData.init.
Proof.
  split.
  - intros k id Hk. cbn in Hk. apply lookup_singleton_Some in Hk as [<- <-].
    eexists. split; reflexivity.
  - intros i n c Hi Hin. destruct i as [|i]; cbn in Hi; [|discriminate].
    injection Hi as <-. cbn in Hin. contradiction.
Qed.

Lemma Insert_wf (td td' : TreeData.t) (par k text : string)
    (values : list string) (icon : string) :
  tree_wf td ->
  TreeData.Insert td par k text values icon = Ok td' ->
  tree_wf td'.
Proof.
  intros [Hd Hc] Hins.
  destruct (Insert_inv _ _ _ _ _ _ _ Hins) as [pid [Hpid [Hdict Hnodes]]].
  set (id := length (TreeData.nodes td)) in *.
  set (node := {| TreeData.parent := par; TreeData.key := k;
                  TreeData.text := text; TreeData.values := values;
                  TreeData.icon := icon; TreeData.children := [] |}) in *.
  assert (Hnew : (TreeData.nodes td ++ [node]) !! id = Some node).
  { apply list_lookup_middle. reflexivity. }
  assert (Hext : forall k' i,
             <[k := id]> (TreeData.tree_dict td) !! k' = Some i ->
             exists m0, (TreeData.nodes td ++ [node]) !! i = Some m0
                        /\ TreeData.key m0 = k').
  { intros k' i Hk. apply lookup_insert_Some in Hk as [[<- <-]|[_ Hk]].
    - exists node. split; [exact Hnew | reflexivity].
    - destruct (Hd k' i Hk) as [n [Hn Hkn]]. exists n.
      split; [apply lookup_app_l_Some, Hn | exact Hkn]. }
  assert (Hfwd : forall j m0,
             (TreeData.nodes td ++ [node]) !! j = Some m0 ->
             exists m, TreeData.nodes td' !! j = Some m
                       /\ TreeData.key m = TreeData.key m0
                       /\ TreeData.parent m = TreeData.parent m0).
  { intros j m0 Hj. rewrite Hnodes, list_lookup_alter. case_decide.
    - subst j. rewrite Hj. cbn. eexists. repeat split.
    - exists m0. auto. }
  assert (Hbwd : forall j m,
             TreeData.nodes td' !! j = Some m ->
             exists m0, (TreeData.nodes td ++ [node]) !! j = Some m0
                        /\ TreeData.key m = TreeData.key m0
                        /\ (TreeData.children m = TreeData.children m0
                            \/ (j = pid
                                /\ TreeData.children m
                                   = TreeData.children m0 ++ [id]))).
  { intros j m. rewrite Hnodes, list_lookup_alter. case_decide.
    - subst j.
      destruct ((TreeData.nodes td ++ [node]) !! pid) as [m0|]; cbn;
        [|discriminate].
      intros [= <-]. exists m0. repeat split. right. auto.
    - intros Hj. exists m. auto. }
  split.
  - intros k' i Hk. rewrite Hdict in Hk.
    destruct (Hext k' i Hk) as [m0 [Hm0 Hkey]].
    destruct (Hfwd i m0 Hm0) as [m [Hm [Hk' _]]].
    exists m. split; [exact Hm | congruence].
  - intros i n c Hi Hin.
    destruct (Hbwd i n Hi) as [m0 [Hm0 [Hkey Hch]]].
    assert (Hold : In c (TreeData.children m0) ->
                   exists m, TreeData.nodes td' !! c = Some m
                             /\ TreeData.parent m = TreeData.key n).
    { intros Hc0. pose proof Hm0 as Hm0'.
      apply lookup_snoc_Some in Hm0' as [[_ Hm0']|[_ <-]].
      - destruct (Hc i m0 c Hm0' Hc0) as [mc [Hmc Hp]].
        destruct (Hfwd c mc (lookup_app_l_Some _ _ _ _ Hmc)) as [m [Hm [_ Hpm]]].
        exists m. split; [exact Hm | congruence].
      - cbn in Hc0. contradiction. }
    destruct Hch as [Hch|[-> Hch]]; rewrite Hch in Hin; [auto|].
    apply in_app_or in Hin as [Hin|[<-|[]]]; [auto|].
    destruct (Hext par pid Hpid) as [mp [Hmp Hkp]].
    assert (mp = m0) by congruence. subst mp.
    destruct (Hfwd id node Hnew) as [m [Hm [_ Hpm]]].
    exists m. split; [exact Hm|]. rewrite Hpm, Hkey, Hkp. reflexivity.
Qed.

(** What one turn of the loop can do: leave the tree, or insert the
    entry under its key and the [dirname] of its key. *)
Lemma tree_step_cases (td td' : TreeData.t) (e : entry) :
  tree_step td e = Ok td' ->
  td' = td
  \/ exists values icon,
       TreeData.Insert td (dirname (tree_key e)) (tree_key e) (e_name e)
         values icon = Ok td'.
Proof.
  unfold tree_step.
  destruct (dateutil_parse (e_mtime e)) as [d|]; cbn; [|discriminate].
  destruct (String.eqb (e_type e) "dir" && negb (TreeData.has_key td (tree_key e))).
  - intros H. right. eauto.
  - destruct (String.eqb (e_type e) "file"); [|intros [= <-]; auto].
    destruct (e_size e) as [n|]; cbn; [|discriminate].
    intros H. right. eauto.
Qed.

Lemma tree_loop_wf (l : list entry) :
  forall td td', tree_wf td -> tree_loop td l = Ok td' -> tree_wf td'.
Proof.
  induction l as [|e l IH]; intros td td' Hwf; cbn.
  - intros [= <-]. exact Hwf.
  - destruct (tree_step td e) as [td1|] eqn:Hstep; cbn; [|discriminate].
    apply IH. destruct (tree_step_cases _ _ _ Hstep) as [->|[v [i Hins]]];
      [exact Hwf | exact (Insert_wf _ _ _ _ _ _ _ Hwf Hins)].
Qed.

(** X8. The tree that [_make_treedata_from_json] returns is consistent,
    whatever the entries: every key of [tree_dict] names a node that
    carries this key, and every node listed among the children of a
    node has the key of that node as its [parent]. *)
Theorem X8_tree_store_consistent (ls_result : list entry) (treedata : TreeData.t) :
  _make_treedata_from_json ls_result = Ok treedata ->
  tree_wf treedata.
Proof. apply tree_loop_wf, init_wf. Qed.

Lemma tree_step_keys (td td' : TreeData.t) (e : entry) :
  tree_step td e = Ok td' ->
  (forall k, TreeData.has_key td k = true -> TreeData.has_key td' k = true)
  /\ (inserted e = true -> TreeData.has_key td' (tree_key e) = true).
Proof.
  assert (Hins : forall values icon,
             TreeData.Insert td (dirname (tree_key e)) (tree_key e) (e_name e)
               values icon = Ok td' ->
             (forall k, TreeData.has_key td k = true ->
                        TreeData.has_key td' k = true)
             /\ TreeData.has_key td' (tree_key e) = true).
  { intros values icon H.
    destruct (Insert_inv _ _ _ _ _ _ _ H) as [pid [_ [Hdict _]]]. split.
    - intros k Hk. apply (Insert_keeps td td' (tree_key e) k Hdict), Hk.
    - apply (Insert_keeps td td' (tree_key e) "" Hdict). }
  unfold tree_step, inserted.
  destruct (dateutil_parse (e_mtime e)) as [d|]; cbn; [|discriminate].
  destruct (String.eqb (e_type e) "dir") eqn:Hdir; cbn.
  - destruct (TreeData.has_key td (tree_key e)) eqn:Hhas; cbn.
    + apply String.eqb_eq in Hdir. rewrite Hdir. cbn.
      intros [= <-]. auto.
    + intros H. destruct (Hins _ _ H). auto.
  - destruct (String.eqb (e_type e) "file") eqn:Hfile; cbn.
    + destruct (e_size e) as [n|]; cbn; [|discriminate].
      intros H. destruct (Hins _ _ H). auto.
    + intros [= <-]. split; [auto | discriminate].
Qed.

Lemma tree_loop_keys (l : list entry) :
  forall td td',
    tree_loop td l = Ok td' ->
    (forall k, TreeData.has_key td k = true -> TreeData.has_key td' k = true)
    /\ (forall e, In e l -> inserted e = true ->
                  TreeData.has_key td' (tree_key e) = true).
Proof.
  induction l as [|e l IH]; intros td td'; cbn.
  - intros [= <-]. split; [auto | contradiction].
  - destruct (tree_step td e) as [td1|] eqn:Hstep; cbn; [|discriminate].
    intros Hloop. destruct (tree_step_keys _ _ _ Hstep) as [Hm Hk].
    destruct (IH _ _ Hloop) as [Hm' Hk']. split.
    + intros k Hkk. apply Hm', Hm, Hkk.
    + intros e2 [<-|Hin] Hins; [apply Hm', Hk, Hins | apply Hk'; auto].
Qed.

Lemma tree_loop_app (l1 l2 : list entry) :
  forall td,
    tree_loop td (l1 ++ l2) = (td1 <- tree_loop td l1 ;; tree_loop td1 l2).
Proof.
  induction l1 as [|e l1 IH]; intros td; cbn; [reflexivity|].
  destruct (tree_step td e) as [td1|]; cbn; [apply IH | reflexivity].
Qed.

Lemma root_kept (l : list entry) (td : TreeData.t) :
  _make_treedata_from_json l = Ok td -> TreeData.has_key td "" = true.
Proof.
  intros Hl. apply (tree_loop_keys _ _ _ Hl). reflexivity.
Qed.

(** X9. A directory that is listed again is ignored: adding, after a
    list that went through, a directory entry whose key an earlier
    file or directory entry has, gives the same tree. *)
Theorem X9_directory_listed_again_is_ignored
    (ls_result : list entry) (treedata : TreeData.t) (e d : entry) :
  _make_treedata_from_json ls_result = Ok treedata ->
  In e ls_result ->
  inserted e = true ->
  e_type d = "dir" ->
  tree_key d = tree_key e ->
  is_Some (dateutil_parse (e_mtime d)) ->
  _make_treedata_from_json (ls_result ++ [d]) = Ok treedata.
Proof.
  unfold _make_treedata_from_json. intros Hl Hin Hins Hdir Hkey [dt Hdt].
  rewrite tree_loop_app, Hl. cbn. unfold tree_step.
  rewrite Hdt, Hdir, Hkey. cbn.
  destruct (tree_loop_keys _ _ _ Hl) as [_ Hk]. rewrite (Hk e Hin Hins).
  reflexivity.
Qed.

(** X10. A file gets a new node every time it is listed: adding a file
    entry whose parent has a node, after a list that went through, goes
    through and makes the store one node longer, even when the key of
    the file is in the tree already; the key then names the new node. *)
Theorem X10_file_listed_again_gets_a_node
    (ls_result : list entry) (treedata : TreeData.t) (f : entry) :
  _make_treedata_from_json ls_result = Ok treedata ->
  e_type f = "file" ->
  is_Some (e_size f) ->
  is_Some (dateutil_parse (e_mtime f)) ->
  TreeData.has_key treedata (dirname (tree_key f)) = true ->
  exists treedata',
    _make_treedata_from_json (ls_result ++ [f]) = Ok treedata'
    /\ length (TreeData.nodes treedata') = S (length (TreeData.nodes treedata))
    /\ TreeData.tree_dict treedata' !! tree_key f
       = Some (length (TreeData.nodes treedata)).
Proof.
  unfold _make_treedata_from_json. intros Hl Hfile [n Hn] [dt Hdt] Hpar.
  rewrite tree_loop_app, Hl. cbn. unfold tree_step.
  rewrite Hdt, Hfile, Hn. cbn.
  destruct (Insert_ok treedata (dirname (tree_key f)) (tree_key f) (e_name f)
              [human n; strftime dt] file_icon Hpar) as [td' [Hins Hdict]].
  exists td'. rewrite Hins. split; [reflexivity|].
  destruct (Insert_inv _ _ _ _ _ _ _ Hins) as [pid [_ [_ Hnodes]]].
  split.
  - rewrite Hnodes, length_alter, length_app. cbn. lia.
  - rewrite Hdict. apply lookup_insert_eq.
Qed.

(** X11. Entries that are neither files nor directories are left out
    of the tree: wherever such an entry (with a date as [mtime]) stands
    in the list, the result is that of the list without it. *)
Theorem X11_other_types_are_left_out (before after : list entry) (e : entry) :
  e_type e <> "dir" ->
  e_type e <> "file" ->
  is_Some (dateutil_parse (e_mtime e)) ->
  _make_treedata_from_json (before ++ e :: after)
  = _make_treedata_from_json (before ++ after).
Proof.
  unfold _make_treedata_from_json. intros Hd Hf [dt Hdt].
  rewrite !tree_loop_app.
  destruct (tree_loop TreeData.init before) as [td|]; cbn; [|reflexivity].
  unfold tree_step. rewrite Hdt. cbn.
  apply String.eqb_neq in Hd, Hf. rewrite Hd, Hf. reflexivity.
Qed.

(** X12. The [mtime] of every entry is parsed before its type is looked
    at: when the entries before it went through, an entry whose [mtime]
    is not a date makes [_make_treedata_from_json] raise the parser's
    error, whatever its type and whatever follows. *)
Theorem X12_bad_mtime_raises
    (before after : list entry) (e : entry) (td : TreeData.t) :
  _make_treedata_from_json before = Ok td ->
  dateutil_parse (e_mtime e) = None ->
  _make_treedata_from_json (before ++ e :: after) = Raise ParserError.
Proof.
  unfold _make_treedata_from_json. intros Hb Hdt.
  rewrite tree_loop_app, Hb. cbn. unfold tree_step. rewrite Hdt. reflexivity.
Qed.

End TreeStore.

(** X8 on a directory and a file listed twice. *)
Lemma X8_tree_store_consistent_witness :
  let env := fixed_env VNone VNone VNone in
  let dir := {| e_name := "a"; e_type := "dir"; e_path := "/a";
                e_size := None; e_mtime := "2022-09-05T14:18:52+02:00" |} in
  let file := {| e_name := "b.txt"; e_type := "file"; e_path := "/a/b.txt";
                 e_size := Some 2103%Z; e_mtime := "2022-09-05T14:18:52+02:00" |} in
  match @_make_treedata_from_json env [dir; file; file] with
  | Ok td => tree_wf td
  | Raise _ => False
  end.
Proof.
  intros env dir file.
  destruct (@_make_treedata_from_json env [dir; file; file]) as [td|] eqn:Hl.
  - apply (@X8_tree_store_consistent env [dir; file; file] td Hl).
  - vm_compute in Hl. discriminate Hl.
Defined.

(** X9 on a directory listed a second time, without its slash. *)
Lemma X9_directory_listed_again_is_ignored_witness :
  let env := fixed_env VNone VNone VNone in
  let dir := {| e_name := "a"; e_type := "dir"; e_path := "/a";
                e_size := None; e_mtime := "2022-09-05T14:18:52+02:00" |} in
  let file := {| e_name := "b.txt"; e_type := "file"; e_path := "/a/b.txt";
                 e_size := Some 2103%Z; e_mtime := "2022-09-05T14:18:52+02:00" |} in
  let again := {| e_name := "A"; e_type := "dir"; e_path := "a";
                  e_size := None; e_mtime := "2023-01-01T00:00:00+02:00" |} in
  exists td,
    @_make_treedata_from_json env [dir; file] = Ok td
    /\ @_make_treedata_from_json env ([dir; file] ++ [again]) = Ok td.
Proof.
  intros env dir file again.
  destruct (@_make_treedata_from_json env [dir; file]) as [td|] eqn:Hl;
    [|vm_compute in Hl; discriminate Hl].
  exists td. split; [reflexivity|].
  apply (@X9_directory_listed_again_is_ignored env [dir; file] td dir again Hl).
  - cbn. tauto.
  - reflexivity.
  - reflexivity.
  - reflexivity.
  - eexists. reflexivity.
Defined.

(** X10 on a file at the top, listed a second time. *)
Lemma X10_file_listed_again_gets_a_node_witness :
  let env := fixed_env VNone VNone VNone in
  let file := {| e_name := "b.txt"; e_type := "file"; e_path := "/b.txt";
                 e_size := Some 2103%Z; e_mtime := "2022-09-05T14:18:52+02:00" |} in
  exists td td',
    @_make_treedata_from_json env [file] = Ok td
    /\ @_make_treedata_from_json env ([file] ++ [file]) = Ok td'
    /\ length (TreeData.nodes td') = S (length (TreeData.nodes td))
    /\ TreeData.tree_dict td' !! "b.txt" = Some (length (TreeData.nodes td)).
Proof.
  intros env file.
  destruct (@_make_treedata_from_json env [file]) as [td|] eqn:Hl;
    [|vm_compute in Hl; discriminate Hl].
  destruct (@X10_file_listed_again_gets_a_node env [file] td file Hl eq_refl)
    as [td' H].
  - eexists. reflexivity.
  - eexists. reflexivity.
  - apply (@root_kept env [file] td Hl).
  - exists td, td'. split; [reflexivity | exact H].
Defined.

(** X11 on a symbolic link between a directory and its file. *)
Lemma X11_other_types_are_left_out_witness :
  let env := fixed_env VNone VNone VNone in
  let dir := {| e_name := "a"; e_type := "dir"; e_path := "/a";
                e_size := None; e_mtime := "2022-09-05T14:18:52+02:00" |} in
  let link := {| e_name := "l"; e_type := "symlink"; e_path := "/nowhere/l";
                 e_size := None; e_mtime := "2022-09-05T14:18:52+02:00" |} in
  let file := {| e_name := "b.txt"; e_type := "file"; e_path := "/a/b.txt";
                 e_size := Some 2103%Z; e_mtime := "2022-09-05T14:18:52+02:00" |} in
  @_make_treedata_from_json env ([dir] ++ link :: [file])
  = @_make_treedata_from_json env ([dir] ++ [file]).
Proof.
  intros env dir link file.
  apply (@X11_other_types_are_left_out env [dir] [file] link).
  - discriminate.
  - discriminate.
  - eexists. reflexivity.
Defined.

(** X12 on a symbolic link without a date. *)
Lemma X12_bad_mtime_raises_witness :
  let env := fixed_env VNone VNone VNone in
  let dir := {| e_name := "a"; e_type := "dir"; e_path := "/a";
                e_size := None; e_mtime := "2022-09-05T14:18:52+02:00" |} in
  let link := {| e_name := "l"; e_type := "symlink"; e_path := "/a/l";
                 e_size := None; e_mtime := "" |} in
  @_make_treedata_from_json env ([dir] ++ link :: [dir]) = Raise ParserError.
Proof.
  intros env dir link.
  destruct (@_make_treedata_from_json env [dir]) as [td|] eqn:Hl;
    [|vm_compute in Hl; discriminate Hl].
  apply (@X12_bad_mtime_raises env [dir] [dir] link td Hl). reflexivity.
Defined.

(** ** [_make_treedata_from_json]: the keys it computes *)

Module PathFacts.
Import ReFacts.



Lemma upto_last_none (c : ascii) (s : string) :
  Str.mem c s = false -> Str.upto_last c s = EmptyString.
Proof.
  destruct s as [|d s]; [reflexivity|]. intros H.
  cbn [Str.upto_last]. rewrite H. reflexivity.
Qed.

Lemma upto_last_join (c : ascii) (d n : string) :
  Str.mem c n = false ->
  Str.upto_last c (d +:+ String c n) = d +:+ String c EmptyString.
Proof.
  intros Hn. induction d as [|x d IH].
  - rewrite !append_nil. cbn [Str.upto_last Str.mem].
    rewrite Ascii.eqb_refl. cbn. rewrite (upto_last_none c n Hn). reflexivity.
  - rewrite !append_cons. cbn [Str.upto_last].
    assert (Hm : Str.mem c (String x (d +:+ String c n)) = true).
    { cbn [Str.mem]. rewrite mem_append. cbn [Str.mem].
      rewrite Ascii.eqb_refl. cbn. rewrite !orb_true_r. reflexivity. }
    rewrite Hm, IH. reflexivity.
Qed.

Lemma rstrip_snoc (c : ascii) (d : string) :
  Str.rstrip c (d +:+ String c EmptyString) = Str.rstrip c d.
Proof.
  induction d as [|x d IH].
  - rewrite append_nil. cbn. rewrite Ascii.eqb_refl. reflexivity.
  - rewrite append_cons. cbn [Str.rstrip]. rewrite IH. reflexivity.
Qed.

Lemma lstrip_nil_rstrip (c : ascii) (s : string) :
  Str.lstrip c s = EmptyString -> Str.rstrip c s = EmptyString.
Proof.
  induction s as [|x s IH]; [reflexivity|].
  cbn [Str.lstrip Str.rstrip].
  destruct (Ascii.eqb x c); [|discriminate].
  intros H. rewrite (IH H). reflexivity.
Qed.

Lemma lstrip_app_nil (c : ascii) (a b : string) :
  Str.lstrip c (a +:+ b) = EmptyString -> Str.lstrip c a = EmptyString.
Proof.
  induction a as [|x a IH]; [reflexivity|].
  rewrite append_cons. cbn [Str.lstrip].
  destruct (Ascii.eqb x c); [exact IH | discriminate].
Qed.

Lemma lstrip_app (c : ascii) (a b : string) :
  Str.lstrip c a <> EmptyString ->
  Str.lstrip c (a +:+ b) = Str.lstrip c a +:+ b.
Proof.
  induction a as [|x a IH]; [intros H; contradiction H; reflexivity|].
  rewrite append_cons. cbn [Str.lstrip].
  destruct (Ascii.eqb x c); [exact IH | intros _; rewrite append_cons; reflexivity].
Qed.

Lemma rstrip_lstrip (c : ascii) (p : string) :
  Str.rstrip c p = p ->
  Str.rstrip c (Str.lstrip c p) = Str.lstrip c p.
Proof.
  induction p as [|x p IH]; [reflexivity|].
  cbn [Str.lstrip]. destruct (Ascii.eqb x c) eqn:Hx; [|auto].
  cbn [Str.rstrip]. rewrite Hx. intros H. apply IH.
  destruct (Str.rstrip c p) as [|y r]; [discriminate | congruence].
Qed.

End PathFacts.

Section TreeKeys.
Context `{E : Externals}.

(** The parent of [d/n] is [d]. *)
Lemma posix_dirname_join (d n : string) :
  d <> EmptyString ->
  Str.rstrip "/" d = d ->
  Str.mem "/" n = false ->
  posix_dirname (d +:+ String "/" n) = d.
Proof.
  intros Hd Hr Hn. unfold posix_dirname.
  rewrite (PathFacts.upto_last_join "/" d n Hn).
  assert (Hne : String.eqb (d +:+ "/") "" = false).
  { destruct d; [contradiction Hd; reflexivity | reflexivity]. }
  assert (Hsl : all_slashes (d +:+ "/") = false).
  { unfold all_slashes.
    destruct (Str.lstrip "/" (d +:+ "/")) as [|y r] eqn:Hl; [|reflexivity].
    exfalso. apply Hd. rewrite <- Hr.
    apply PathFacts.lstrip_nil_rstrip, (PathFacts.lstrip_app_nil _ _ _ Hl). }
  rewrite Hne, Hsl. cbn [negb andb].
  rewrite PathFacts.rstrip_snoc. exact Hr.
Qed.

(** X13. Where [os.path] is [posixpath] (every system but Windows), the
    parent key of an entry at [d/name] is the key of the entry at [d]:
    this is what makes a file find the node of its directory. ([d] has
    a name in it and no slash at its end, [name] has no slash.) *)
Theorem X13_parent_key_is_directory_key (dir child : entry) (name : string) :
  os_name <> "nt" ->
  e_path child = e_path dir +:+ "/" +:+ name ->
  Str.mem "/" name = false ->
  Str.rstrip "/" (e_path dir) = e_path dir ->
  Str.lstrip "/" (e_path dir) <> EmptyString ->
  dirname (tree_key child) = tree_key dir.
Proof.
  intros Hos Hc Hn Hr Hl. unfold dirname, tree_key. rewrite Hc.
  apply String.eqb_neq in Hos. rewrite Hos.
  rewrite (PathFacts.lstrip_app "/" _ _ Hl).
  change ("/" +:+ name) with (String "/" name).
  apply posix_dirname_join; [exact Hl | | exact Hn].
  apply PathFacts.rstrip_lstrip, Hr.
Qed.

Lemma tree_step_ext (td : TreeData.t) (e1 e2 : entry) :
  tree_key e1 = tree_key e2 ->
  e_name e1 = e_name e2 ->
  e_type e1 = e_type e2 ->
  e_size e1 = e_size e2 ->
  e_mtime e1 = e_mtime e2 ->
  tree_step td e1 = tree_step td e2.
Proof.
  intros Hk Hn Ht Hs Hm. unfold tree_step. rewrite Hk, Hn, Ht, Hs, Hm.
  reflexivity.
Qed.

(** X14. A leading slash makes no difference: the list of entries with
    a slash put before every path gives the same result, tree or
    exception, as the list itself. *)
Theorem X14_leading_slash_is_dropped (ls_result : list entry) :
  _make_treedata_from_json
    (map (fun e => with_path e ("/" +:+ e_path e)) ls_result)
  = _make_treedata_from_json ls_result.
Proof.
  unfold _make_treedata_from_json. generalize TreeData.init.
  induction ls_result as [|e l IH]; intros td; [reflexivity|].
  cbn [map tree_loop].
  rewrite (tree_step_ext td (with_path e ("/" +:+ e_path e)) e);
    try reflexivity.
  destruct (tree_step td e) as [td1|]; cbn; [apply IH | reflexivity].
Qed.


(** X16. Where [os.path] is [posixpath] (every system but Windows), an
    entry at the top (no slash in its path but leading ones) hangs
    under the root and so always finds its parent: after a list that
    went through, such an entry with a date, and a size when it is a
    file, goes through as well. *)
Theorem X16_top_entries_go_through
    (ls_result : list entry) (td : TreeData.t) (e : entry) :
  os_name <> "nt" ->
  _make_treedata_from_json ls_result = Ok td ->
  fields_ok e ->
  Str.mem "/" (Str.lstrip "/" (e_path e)) = false ->
  dirname (tree_key e) = ""
  /\ exists td', _make_treedata_from_json (ls_result ++ [e]) = Ok td'.
Proof.
  intros Hos Hl Hf Hm.
  assert (Hd : dirname (tree_key e) = "").
  { unfold dirname, posix_dirname, tree_key.
    apply String.eqb_neq in Hos. rewrite Hos.
    rewrite PathFacts.upto_last_none; [reflexivity | exact Hm]. }
  split; [exact Hd|].
  unfold _make_treedata_from_json in *. rewrite tree_loop_app, Hl. cbn.
  destruct (tree_step_ok td e Hf) as [td' [Hs _]].
  { intros _. rewrite Hd. apply (root_kept ls_result td Hl). }
  exists td'. rewrite Hs. reflexivity.
Qed.

End TreeKeys.

(** X13 on a file of a directory. *)
Lemma X13_parent_key_is_directory_key_witness :
  let env := fixed_env VNone VNone VNone in
  let dir := {| e_name := "Lib"; e_type := "dir"; e_path := "/C/GIT/Lib";
                e_size := None; e_mtime := "2022-12-28T19:58:51+01:00" |} in
  let child := {| e_name := "Site.py"; e_type := "file";
                  e_path := "/C/GIT/Lib/Site.py"; e_size := Some 12%Z;
                  e_mtime := "2022-12-28T19:58:51+01:00" |} in
  @dirname env (@tree_key env child) = @tree_key env dir.
Proof.
  intros env dir child.
  apply (@X13_parent_key_is_directory_key env dir child "Site.py");
    try reflexivity; discriminate.
Defined.


(** X16 on a file at the top after a directory. *)
Lemma X16_top_entries_go_through_witness :
  let env := fixed_env VNone VNone VNone in
  let dir := {| e_name := "a"; e_type := "dir"; e_path := "/a";
                e_size := None; e_mtime := "2022-09-05T14:18:52+02:00" |} in
  let file := {| e_name := "b.txt"; e_type := "file"; e_path := "//b.txt";
                 e_size := Some 2103%Z; e_mtime := "2022-09-05T14:18:52+02:00" |} in
  @dirname env (@tree_key env file) = ""
  /\ exists td', @_make_treedata_from_json env ([dir] ++ [file]) = Ok td'.
Proof.
  intros env dir file.
  destruct (@_make_treedata_from_json env [dir]) as [td|] eqn:Hl;
    [|vm_compute in Hl; discriminate Hl].
  apply (@X16_top_entries_go_through env [dir] td file); [|exact Hl| |].
  - discriminate.
  - split; [eexists; reflexivity | intros _; eexists; reflexivity].
  - reflexivity.
Defined.

(** On Windows the parent is cut at a backslash and after a drive as
    well: a file whose name has a backslash in it is looked for under a
    directory that has no node. *)
Example windows_parent_cut_at_backslash :
  let mtime := "2022-09-05T14:18:52+02:00" in
  let dir := {| e_name := "a"; e_type := "dir"; e_path := "/a";
                e_size := None; e_mtime := mtime |} in
  let file := {| e_name := "b\c.txt"; e_type := "file"; e_path := "/a/b\c.txt";
                 e_size := Some 2103%Z; e_mtime := mtime |} in
  @dirname nt_env "a/b\c.txt" = "a/b"
  /\ @dirname nt_env "a:b" = "a:"
  /\ @dirname nt_env "a\b" = "a"
  /\ @_make_treedata_from_json nt_env [dir; file] = Raise (KeyError "a/b")
  /\ exists td,
       @_make_treedata_from_json (fixed_env VNone VNone VNone) [dir; file]
       = Ok td.
Proof. vm_compute. repeat split. eexists. reflexivity. Qed.

(** ** [main_gui]: the destination popup *)

Module SplitFacts.
Import ReFacts.

(** The shape of [s.split(c)]: a head without [c] and, when there are
    more pieces, a last piece without [c] that ends [s] after a [c]. *)
Lemma split_shape (c : ascii) (s : string) :
  exists h t,
    Str.split c s = h :: t
    /\ Str.mem c h = false
    /\ match last t with
       | None => t = [] /\ s = h
       | Some x => Str.mem c x = false /\ exists q, s = q +:+ String c x
       end.
Proof.
  induction s as [|a s [h [t [Hs [Hh Ht]]]]].
  - exists EmptyString, []. repeat split.
  - cbn [Str.split]. rewrite Hs. destruct (Ascii.eqb a c) eqn:Ha.
    + apply Ascii.eqb_eq in Ha. subst a.
      exists EmptyString, (h :: t). split; [reflexivity|]. split; [reflexivity|].
      rewrite last_cons. destruct (last t) as [x|].
      * destruct Ht as [Hx [q ->]]. split; [exact Hx|].
        exists (String c q). rewrite append_cons. reflexivity.
      * destruct Ht as [-> ->]. split; [exact Hh|].
        exists EmptyString. reflexivity.
    + exists (String a h), t. split; [reflexivity|]. split.
      * cbn [Str.mem]. rewrite Ha, Hh. reflexivity.
      * destruct (last t) as [x|].
        -- destruct Ht as [Hx [q ->]]. split; [exact Hx|].
           exists (String a q). rewrite append_cons. reflexivity.
        -- destruct Ht as [-> ->]. auto.
Qed.

Lemma split_last_spec (c : ascii) (s : string) :
  exists x,
    StrExtra.split_last c s = Ok x
    /\ Str.mem c x = false
    /\ ((Str.mem c s = false /\ x = s) \/ exists q, s = q +:+ String c x).
Proof.
  unfold StrExtra.split_last.
  destruct (split_shape c s) as [h [t [Hs [Hh Ht]]]].
  rewrite Hs, last_cons. destruct (last t) as [x|].
  - destruct Ht as [Hx Hq]. exists x. auto.
  - destruct Ht as [_ ->]. exists h. auto.
Qed.

End SplitFacts.

Section DestinationPopup.
Context `{E : Externals}.

(** X17. For a REST or SFTP backend the destination popup shows the
    repository text from after its last [@] on, so without the user and
    password that stand before it; a repository without [@] is shown
    whole. *)
Theorem X17_destination_shown_after_last_at
    (b r : string) (config : gmap string (gmap string value))
    (bound : option value) :
  In b ["REST"; "SFTP"] ->
  lookup_entry config "repository" = Some (VStr r) ->
  exists x,
    destination_event (Some b) config bound = (NoFrame (VStr x), Some (VStr x))
    /\ Str.mem "@" x = false
    /\ ((Str.mem "@" r = false /\ x = r) \/ exists q, r = q +:+ "@" +:+ x).
Proof.
  intros Hb Hr.
  destruct (SplitFacts.split_last_spec "@" r) as [x [Hx [Hm Hq]]].
  exists x. split; [|split; assumption].
  unfold destination_event, repo_entry, getitem. unfold lookup_entry in Hr.
  destruct (config !! "repo") as [repo|]; [|discriminate].
  assert (Hbt : backend_truthy (Some b) = true
                /\ Str.in_list b ["REST"; "SFTP"] = true).
  { destruct Hb as [<-|[<-|[]]]; split; reflexivity. }
  destruct Hbt as [-> ->]. cbn [rbind]. rewrite Hr. cbn [rbind].
  rewrite Hx. reflexivity.
Qed.

(** X18. When [main_gui] found no backend name (no repository entry,
    one that is not a text, or a text with nothing before its first
    colon), the handler of the destination event assigns nothing to
    [destination_string]: the first such event reads a local that is
    not bound, an [UnboundLocalError] that its [except (TypeError,
    KeyError)] does not catch. *)
Theorem X18_destination_unbound_without_backend
    (config config' : gmap string (gmap string value)) :
  match lookup_entry config "repository" with
  | Some (VStr r) => before_colon r = ""
  | _ => True
  end ->
  exists backend_type shown,
    main_gui_destination config = Ok (backend_type, shown)
    /\ destination_event backend_type config' None = (UnboundLocal, None).
Proof.
  unfold main_gui_destination, repo_entry, lookup_entry, getitem.
  destruct (config !! "repo") as [repo|]; cbn -[Str.in_list];
    [|intros _; exists None; eexists; split; reflexivity].
  destruct (repo !! "repository") as [v|]; cbn -[Str.in_list];
    [|intros _; exists None; eexists; split; reflexivity].
  destruct v as [ | | |r| ]; cbn -[Str.in_list];
    try (intros _; exists None; eexists; split; reflexivity).
  intros Hr. destruct (split_before_colon r) as [t Ht]. rewrite Ht, Hr.
  rewrite (str_upper_ascii "" eq_refl).
  exists (Some ""). eexists. split; reflexivity.
Qed.

End DestinationPopup.

(** X17 on an SFTP repository with a user and a password. *)
Lemma X17_destination_shown_after_last_at_witness :
  let env := fixed_env VNone VNone VNone in
  let config : gmap string (gmap string value) :=
    {[ "repo" := {[ "repository" := VStr "sftp:user:p@ss@host:/srv" ]} ]} in
  exists x,
    @destination_event env (Some "SFTP") config None
    = (NoFrame (VStr x), Some (VStr x))
    /\ Str.mem "@" x = false
    /\ ((Str.mem "@" "sftp:user:p@ss@host:/srv" = false
         /\ x = "sftp:user:p@ss@host:/srv")
        \/ exists q, "sftp:user:p@ss@host:/srv" = q +:+ "@" +:+ x).
Proof.
  intros env config.
  apply (@X17_destination_shown_after_last_at env "SFTP"
           "sftp:user:p@ss@host:/srv" config None).
  - cbn. tauto.
  - reflexivity.
Defined.

(** X18 on an empty configuration. *)
Lemma X18_destination_unbound_without_backend_witness :
  let env := fixed_env VNone VNone VNone in
  exists backend_type shown,
    @main_gui_destination env ∅ = Ok (backend_type, shown)
    /\ @destination_event env backend_type ∅ None = (UnboundLocal, None).
Proof.
  intros env.
  apply (@X18_destination_unbound_without_backend env ∅ ∅).
  exact I.
Defined.

(** ** [restore_window] *)

Section RestoreProperties.
Context `{E : Externals}.



End RestoreProperties.

(** ** [main_gui]: runs of the backup loop that show everything *)

Module CompleteRuns.
Import Progress Schedules.

Lemma lockstep_run (lines : list string) :
  forall sh,
    run (lockstep (length lines))
      {| pending := lines; queue := []; done := false; cancelled := false;
         at_pc := AtTest; shown := sh |}
    = {| pending := []; queue := []; done := true; cancelled := false;
         at_pc := Exited; shown := sh ++ List.filter nonempty lines |}.
Proof.
  induction lines as [|l lines IH]; intros sh.
  - cbn. rewrite app_nil_r. reflexivity.
  - cbn [length lockstep run step].
    unfold coordinator_step at 1. cbn.
    rewrite IH. unfold nonempty at 2.
    destruct (negb (String.eqb l "")); cbn; [|reflexivity].
    rewrite <- app_assoc. reflexivity.
Qed.

End CompleteRuns.

(** X20. The loop of [main_gui] has shown every non-empty line of the
    backup exactly when none is left behind: in a state, reached by any
    interleaving, where the queue is empty and the task has no line
    left to write, the lines shown are the non-empty lines of the task,
    in order. *)
Theorem X20_nothing_left_means_all_shown
    (lines : list string) (schedule : list Progress.actor) :
  Progress.queue (Progress.run schedule (Progress.start lines)) = [] ->
  Progress.pending (Progress.run schedule (Progress.start lines)) = [] ->
  Progress.shown (Progress.run schedule (Progress.start lines))
  = List.filter Progress.nonempty lines.
Proof.
  intros Hq Hp.
  destruct (ProgressFacts.run_keeps_order lines schedule (Progress.start lines))
    as [taken [Hl Hs]].
  { exists []. split; reflexivity. }
  rewrite Hq, Hp, !app_nil_r in Hl. subst taken. exact Hs.
Qed.

(** X21. There are runs in which the loop shows everything: when the
    task writes each line while the loop waits for it and completes
    after the last line was taken, the loop ends with every non-empty
    line shown and an empty queue. *)
Theorem X21_lockstep_run_shows_all (lines : list string) :
  let s := Progress.run (Schedules.lockstep (length lines)) (Progress.start lines) in
  Progress.finished s = true
  /\ Progress.queue s = []
  /\ Progress.shown s = List.filter Progress.nonempty lines.
Proof.
  cbn zeta. unfold Progress.start. rewrite CompleteRuns.lockstep_run.
  repeat split.
Qed.

(** A run of [restore_window]: a click in the form, a restore into an
    empty folder name, and a cancel that comes too late. *)
Example restore_window_run :
  @restore_window (restore_env "/tmp/restore") 1 ∅ "a2103ca8" ["/a"]
    [(Key "-RESTORE-FOLDER-", ""); (Key "restore", ""); (Key "cancel", "")]
  = ([ESubmit "_restore_window";
      EPopupAnimated (Some "main_gui.restore_in_progress...");
      EPopupAnimated None;
      EPopupError "main_gui.restore_failed"],
     Ok true).
Proof. reflexivity. Qed.

(** X20 on the lock-step run of two lines. *)
Lemma X20_nothing_left_means_all_shown_witness :
  Progress.shown
    (Progress.run (Schedules.lockstep 2)
       (Progress.start ["scanning"; "uploaded 1 file"]))
  = ["scanning"; "uploaded 1 file"].
Proof.
  apply (X20_nothing_left_means_all_shown ["scanning"; "uploaded 1 file"]
           (Schedules.lockstep 2));
    reflexivity.
Defined.

(** ** The build script *)

Module BuildFacts.
Import Build ReFacts.

Lemma strip_version_cons (a : ascii) (v : string) :
  strip_version (String a v)
  = if Ascii.eqb a "-" then EmptyString else String a (strip_version v).
Proof.
  unfold strip_version. cbn [Str.split].
  destruct (Ascii.eqb a "-"); [reflexivity|].
  destruct (Str.split "-" v); reflexivity.
Qed.

Lemma prefix_app (sub a b : string) :
  String.prefix sub a = true -> String.prefix sub (a +:+ b) = true.
Proof.
  revert a. induction sub as [|x sub IH]; intros a H.
  - destruct (a +:+ b); reflexivity.
  - destruct a as [|y a]; [discriminate|].
    rewrite append_cons. cbn [String.prefix] in *.
    destruct (ascii_dec x y); [apply IH, H | discriminate].
Qed.

Lemma contains_app_l (sub a b : string) :
  contains sub a = true -> contains sub (a +:+ b) = true.
Proof.
  induction a as [|y a IH]; intros H.
  - cbn [contains] in H. rewrite orb_false_r in H.
    destruct sub; [|discriminate H].
    destruct (EmptyString +:+ b); reflexivity.
  - rewrite append_cons. cbn [contains] in *.
    apply orb_true_iff in H as [H|H].
    + apply (prefix_app sub (String y a) b) in H.
      rewrite append_cons in H. rewrite H. reflexivity.
    + rewrite (IH H). apply orb_true_r.
Qed.

Lemma contains_app_r (sub a b : string) :
  contains sub b = true -> contains sub (a +:+ b) = true.
Proof.
  intros H. induction a as [|y a IH]; [exact H|].
  rewrite append_cons. cbn [contains]. rewrite IH. apply orb_true_r.
Qed.

(** Joining a relative piece keeps what was there and ends with the
    piece. *)
Lemma join2_relative (path b : string) :
  starts_with "/" b = false ->
  exists mid, join2 path b = path +:+ mid +:+ b.
Proof.
  intros Hb. unfold join2. rewrite Hb.
  destruct (String.eqb path "" || ends_with "/" path).
  - exists EmptyString. reflexivity.
  - exists "/". reflexivity.
Qed.

Section Script.
Context `{B : Env}.

(** The path of a file of the [examples] directory holds the base
    directory and ends with the name of the file. *)
Lemma examples_path (name : string) :
  starts_with "/" name = false ->
  exists mid, join BASEDIR [pardir; "examples"; name] = BASEDIR +:+ mid +:+ name.
Proof.
  intros Hn. unfold join. cbn [fold_left].
  destruct (join2_relative BASEDIR pardir eq_refl) as [m1 ->].
  destruct (join2_relative (BASEDIR +:+ m1 +:+ pardir) "examples" eq_refl)
    as [m2 ->].
  destruct (join2_relative ((BASEDIR +:+ m1 +:+ pardir) +:+ m2 +:+ "examples")
              name Hn) as [m3 ->].
  exists (m1 +:+ pardir +:+ m2 +:+ "examples" +:+ m3).
  rewrite !append_assoc. reflexivity.
Qed.

Lemma commands_private : commands (fst check_private_build) = [].
Proof.
  unfold check_private_build, get_private_conf_dist_file.
  destruct has_private_secret_keys, has_secret_keys;
    repeat match goal with
           | |- context [if ?c then _ else _] => destruct c
           end; reflexivity.
Qed.

Lemma commands_conf : commands (fst get_private_conf_dist_file) = [].
Proof.
  unfold get_private_conf_dist_file.
  match goal with |- context [if ?c then _ else _] => destruct c end;
    reflexivity.
Qed.

Lemma commands_nuitka : commands (fst have_nuitka_commercial) = [].
Proof. unfold have_nuitka_commercial. destruct has_nuitka_commercial; reflexivity. Qed.

End Script.
End BuildFacts.

(** X22. The version written into the executables is the version up to
    its first dash: it has no dash, a suffix after a dash (as in a
    development version) does not change it, and a version without
    dash is kept whole. *)
Theorem X22_version_suffix_is_stripped (version suffix : string) :
  Str.mem "-" (Build.strip_version version) = false
  /\ Build.strip_version (version +:+ "-" +:+ suffix) = Build.strip_version version
  /\ (Str.mem "-" version = false -> Build.strip_version version = version).
Proof.
  induction version as [|a v [IH1 [IH2 IH3]]].
  - repeat split.
  - rewrite ReFacts.append_cons, !BuildFacts.strip_version_cons.
    destruct (Ascii.eqb a "-") eqn:Ha.
    + split; [reflexivity|]. split; [reflexivity|].
      cbn [Str.mem]. rewrite Ha. discriminate.
    + split; [|split].
      * cbn [Str.mem]. rewrite Ha. exact IH1.
      * rewrite IH2. reflexivity.
      * cbn [Str.mem]. rewrite Ha. cbn [orb]. intros H.
        rewrite (IH3 H). reflexivity.
Qed.

Section BuildProperties.
Context `{B : Build.Env}.

(** X23. Provided a key module can be imported, a build counts as
    private as soon as the private keys are there, or the private
    configuration file exists, or the path of the base directory has
    the text [_private] in it: the test looks at the whole path of the
    configuration file, not at its name only. *)
Theorem X23_private_build_detection :
  Build.has_private_secret_keys = true \/ Build.has_secret_keys = true ->
  Build.has_private_secret_keys = true
  \/ Build.isfile
       (Build.join Build.BASEDIR
          [Build.pardir; "examples"; "_private_npbackup.conf.dist"]) = true
  \/ Build.contains "_private" Build.BASEDIR = true ->
  snd Build.check_private_build = Some true.
Proof.
  intros Hkeys Hcase. unfold Build.check_private_build.
  destruct Build.has_private_secret_keys eqn:Hp.
  - destruct Build.get_private_conf_dist_file as [tr path].
    destruct (Build.contains "_private" path); reflexivity.
  - destruct Hkeys as [Hk|Hk]; [discriminate|]. rewrite Hk.
    destruct Hcase as [Hc|[Hc|Hc]]; [discriminate| |].
    + unfold Build.get_private_conf_dist_file. rewrite Hc.
      destruct (BuildFacts.examples_path "_private_npbackup.conf.dist" eq_refl)
        as [mid ->].
      rewrite <- ReFacts.append_assoc, BuildFacts.contains_app_r; reflexivity.
    + unfold Build.get_private_conf_dist_file.
      destruct (Build.isfile _).
      * destruct (BuildFacts.examples_path "_private_npbackup.conf.dist" eq_refl)
          as [mid ->].
        rewrite (BuildFacts.contains_app_l _ _ _ Hc). reflexivity.
      * destruct (BuildFacts.examples_path "npbackup.conf.dist" eq_refl)
          as [mid ->].
        rewrite (BuildFacts.contains_app_l _ _ _ Hc). reflexivity.
Qed.

(** X24. Without the engine binary nothing is built: [compile] runs no
    command and ends with the message that the source file cannot be
    found; the output directory has been created before, when it was
    not there. *)
Theorem X24_no_engine_binary_no_command (arch : string) (private : bool) :
  snd Build.check_private_build = Some private ->
  Build.found (Build.get_restic_internal_binary arch) = false ->
  Build.commands (fst (Build.compile arch)) = []
  /\ last (fst (Build.compile arch))
     = Some (Build.Print "Cannot find restic source file.")
  /\ snd (Build.compile arch) = true
  /\ (forall out,
        out = Build.abspath
                (Build.join Build.BASEDIR
                   [Build.pardir;
                    "BUILDS" +:+ (if private then "-PRIVATE" else "")]) ->
        Build.isdir out = false ->
        In (Build.Makedirs out) (fst (Build.compile arch))).
Proof.
  intros Hp Hf. unfold Build.compile.
  pose proof BuildFacts.commands_private as Hc.
  destruct Build.check_private_build as [trp chk]. cbn in Hp, Hc. subst chk.
  rewrite Hf. cbn [negb fst snd].
  split; [|split; [|split; [reflexivity|]]].
  - unfold Build.commands in *. rewrite !omap_app, Hc.
    match goal with |- context [if ?c then _ else _] => destruct c end;
      reflexivity.
  - rewrite !app_assoc. apply last_snoc.
  - intros out -> Hd. rewrite Hd. cbn [negb].
    apply in_or_app. right. left. reflexivity.
Qed.

(** X25. With the engine binary, [compile] runs exactly two commands
    in this order: first the build of the program (the command that
    ends with [bin/npbackup]), then the build of the installer (the
    command that ends with [bin/NPBackupInstaller.py]), the second
    whatever the exit code of the first; it ends by reporting errors
    exactly when one of the two exit codes is not zero. *)
Theorem X25_compile_runs_two_commands (arch : string) (private : bool) :
  snd Build.check_private_build = Some private ->
  Build.found (Build.get_restic_internal_binary arch) = true ->
  exists program_options installer_options,
    let program := program_options +:+ " bin/npbackup" in
    let installer := installer_options +:+ " bin/NPBackupInstaller.py" in
    Build.commands (fst (Build.compile arch)) = [program; installer]
    /\ last (fst (Build.compile arch))
       = Some (Build.Print
                 ("COMPILE ERRORS "
                    +:+ Build.str_bool
                          (negb (Build.command_runner program =? 0)%Z
                           || negb (Build.command_runner installer =? 0)%Z)))
    /\ snd (Build.compile arch) = true.
Proof.
  intros Hp Hf. unfold Build.compile.
  pose proof BuildFacts.commands_private as Hc.
  pose proof BuildFacts.commands_conf as Hc2.
  pose proof BuildFacts.commands_nuitka as Hc3.
  destruct Build.check_private_build as [trp chk]. cbn in Hp, Hc. subst chk.
  rewrite Hf. cbn [negb].
  destruct Build.get_private_conf_dist_file as [trc conf]. cbn in Hc2.
  destruct Build.have_nuitka_commercial as [trn commercial]. cbn in Hc3.
  cbn [fst snd].
  match goal with
  | |- context [[Build.Print ?c1; Build.Command ?c1; Build.Print ?c2;
                 Build.Command ?c2; _]] =>
      assert (H1 : exists o, c1 = o +:+ " bin/npbackup")
        by (rewrite <- !ReFacts.append_assoc; eexists; reflexivity);
      assert (H2 : exists o, c2 = o +:+ " bin/NPBackupInstaller.py")
        by (rewrite <- !ReFacts.append_assoc; eexists; reflexivity);
      set (CMD := c1) in *; set (CMD2 := c2) in *
  end.
  destruct H1 as [program_options H1]. destruct H2 as [installer_options H2].
  exists program_options, installer_options. cbv zeta.
  rewrite <- H1, <- H2. clearbody CMD CMD2.
  split; [|split; [|reflexivity]].
  - unfold Build.commands in *. rewrite !omap_app, Hc, Hc2, Hc3.
    match goal with |- context [if ?c then _ else _] => destruct c end;
      reflexivity.
  - match goal with
    | |- last (_ ++ _ ++ _ ++ _ ++ [?a; ?b; ?c; ?d; ?e]) = _ =>
        change [a; b; c; d; e] with ([a; b; c; d] ++ [e])
    end.
    rewrite !app_assoc, last_snoc.
    destruct (Build.command_runner CMD =? 0)%Z,
      (Build.command_runner CMD2 =? 0)%Z; reflexivity.
Qed.

End BuildProperties.

(** X22 on a development version. *)
Lemma X22_version_suffix_is_stripped_witness :
  Build.strip_version "2.2.0" = "2.2.0".
Proof.
  apply (proj2 (proj2 (X22_version_suffix_is_stripped "2.2.0" "dev"))).
  reflexivity.
Defined.

(** X23 on a checkout under a directory with [_private] in its name,
    with the public keys and the public configuration file. *)
Lemma X23_private_build_detection_witness :
  snd (@Build.check_private_build
         (Build.build_env "/home/dev/_private/npbackup/bin" false (Some "restic") 0))
  = Some true.
Proof.
  apply (@X23_private_build_detection
           (Build.build_env "/home/dev/_private/npbackup/bin" false (Some "restic") 0)).
  - right. reflexivity.
  - right. right. reflexivity.
Defined.

(** X24 on a build without the engine binary. *)
Lemma X24_no_engine_binary_no_command_witness :
  let env := Build.build_env "/src/bin" false None 0 in
  Build.commands (fst (@Build.compile env "64")) = []
  /\ last (fst (@Build.compile env "64"))
     = Some (Build.Print "Cannot find restic source file.")
  /\ snd (@Build.compile env "64") = true
  /\ In (Build.Makedirs "/src/bin/../BUILDS") (fst (@Build.compile env "64")).
Proof.
  intros env.
  destruct (@X24_no_engine_binary_no_command env "64" false eq_refl eq_refl)
    as [H1 [H2 [H3 H4]]].
  repeat split; try assumption.
  apply (H4 "/src/bin/../BUILDS"); reflexivity.
Defined.

(** X25 on a build whose commands fail. *)
Lemma X25_compile_runs_two_commands_witness :
  let env := Build.build_env "/src/bin" false (Some "/src/restic") 1 in
  exists program_options installer_options,
    let program := program_options +:+ " bin/npbackup" in
    let installer := installer_options +:+ " bin/NPBackupInstaller.py" in
    Build.commands (fst (@Build.compile env "64")) = [program; installer]
    /\ last (fst (@Build.compile env "64"))
       = Some (Build.Print
                 ("COMPILE ERRORS "
                    +:+ Build.str_bool
                          (negb (@Build.command_runner env program =? 0)%Z
                           || negb (@Build.command_runner env installer =? 0)%Z)))
    /\ snd (@Build.compile env "64") = true.
Proof.
  intros env.
  apply (@X25_compile_runs_two_commands env "64" false); reflexivity.
Defined.

(** ** The build script: the name of the configuration file *)

Module ConfFacts.
Import Build ReFacts.

Lemma ends_with_app (c : ascii) (a b : string) :
  b <> EmptyString -> ends_with c (a +:+ b) = ends_with c b.
Proof.
  intros Hb. induction a as [|x a IH]; [reflexivity|].
  rewrite append_cons. cbn [ends_with].
  destruct (a +:+ b) as [|y r] eqn:Hab; [|exact IH].
  destruct a; [rewrite append_nil in Hab; contradiction | discriminate].
Qed.

Lemma basename_join (r x : string) :
  Str.mem "/" x = false -> basename (r +:+ String "/" x) = x.
Proof.
  intros Hx. induction r as [|c r IH].
  - rewrite append_nil. cbn [basename]. rewrite Hx. reflexivity.
  - rewrite append_cons. cbn [basename].
    rewrite mem_append. cbn [Str.mem]. rewrite orb_true_r. exact IH.
Qed.

(** A text that starts with a text without slash starts with no slash
    for as long as that text is. *)
Lemma prefix_no_slash (old : string) :
  forall s,
    Str.mem "/" old = false ->
    String.prefix old s = true ->
    no_slash_upto (String.length old) s = true.
Proof.
  induction old as [|a old IH]; intros s Hm Hp; [reflexivity|].
  destruct s as [|b s]; [reflexivity|].
  cbn [String.prefix] in Hp. destruct (ascii_dec a b) as [<-|]; [|discriminate].
  cbn [Str.mem] in Hm. apply orb_false_iff in Hm as [Ha Hm].
  cbn [String.length no_slash_upto]. rewrite Ha, (IH s Hm Hp). reflexivity.
Qed.

Lemma private_prefix_no_slash (c : ascii) (s : string) :
  String.prefix "_private_" (String c s) = true ->
  no_slash_upto (String.length "_private_" - 1) s = true.
Proof.
  intros Hp. cbn [String.prefix] in Hp.
  destruct (ascii_dec "_" c); [|discriminate].
  apply (prefix_no_slash "private_" s eq_refl Hp).
Qed.

(** Replacing in [p/n] replaces in [n] apart. *)
Lemma replace_go_slash (n : string) (p : string) :
  forall skip,
    no_slash_upto skip (p +:+ String "/" n) = true ->
    exists r,
      replace_go "_private_" "" skip (p +:+ String "/" n)
      = r +:+ String "/" (replace "_private_" "" n).
Proof.
  induction p as [|c p IH]; intros skip Hs.
  - rewrite append_nil in *. destruct skip as [|k]; [|discriminate Hs].
    exists EmptyString. reflexivity.
  - rewrite append_cons in *. destruct skip as [|k].
    + cbn [replace_go].
      destruct (String.prefix "_private_" (String c (p +:+ String "/" n)))
        eqn:Hp.
      * apply private_prefix_no_slash in Hp.
        destruct (IH _ Hp) as [r Hr]. exists r. rewrite Hr. reflexivity.
      * destruct (IH 0%nat eq_refl) as [r Hr]. exists (String c r).
        rewrite Hr. reflexivity.
    + cbn [replace_go]. cbn [no_slash_upto] in Hs.
      apply andb_true_iff in Hs as [_ Hs]. apply (IH _ Hs).
Qed.

Section Script.
Context `{B : Env}.

Lemma examples_file (name : string) :
  starts_with "/" name = false ->
  exists dir, join BASEDIR [pardir; "examples"; name] = dir +:+ String "/" name.
Proof.
  intros Hn. unfold join. cbn [fold_left].
  destruct (BuildFacts.join2_relative BASEDIR pardir eq_refl) as [m1 ->].
  destruct (BuildFacts.join2_relative (BASEDIR +:+ m1 +:+ pardir) "examples"
              eq_refl) as [m2 ->].
  rewrite <- !append_assoc.
  set (d := ((BASEDIR +:+ m1) +:+ pardir) +:+ m2).
  clearbody d. exists (d +:+ "examples"). unfold join2. rewrite Hn.
  rewrite ends_with_app by discriminate.
  assert (He : String.eqb (d +:+ "examples") "" = false).
  { destruct d; reflexivity. }
  rewrite He. reflexivity.
Qed.

End Script.
End ConfFacts.

(** X26. The installer always ships the configuration file under its
    public name: whether the private file exists or not, and whatever
    the base directory, the name given to it is
    [npbackup.conf.dist]. *)
Theorem X26_conf_file_shipped_under_public_name `{B : Build.Env} :
  Build.basename
    (Build.replace "_private_" "" (snd Build.get_private_conf_dist_file))
  = "npbackup.conf.dist".
Proof.
  unfold Build.get_private_conf_dist_file.
  destruct (Build.isfile _); cbn [snd].
  - destruct (ConfFacts.examples_file "_private_npbackup.conf.dist" eq_refl)
      as [dir ->].
    unfold Build.replace at 1.
    destruct (ConfFacts.replace_go_slash "_private_npbackup.conf.dist" dir 0%nat
                eq_refl) as [r ->].
    apply ConfFacts.basename_join. reflexivity.
  - destruct (ConfFacts.examples_file "npbackup.conf.dist" eq_refl) as [dir ->].
    unfold Build.replace at 1.
    destruct (ConfFacts.replace_go_slash "npbackup.conf.dist" dir 0%nat eq_refl)
      as [r ->].
    apply ConfFacts.basename_join. reflexivity.
Qed.
